(** * Crypto dashboard renderer (main.js): a shallow embedding

    The renderer is a browser script: it receives JSON payloads (pushed over
    the socket or fetched from the two read endpoints) and writes a price
    table, an alert list and a chart.

    - [Text]: the string operations the script uses.  Strings are Rocq
      strings holding the UTF-8 bytes of the text.  Numeric-literal parsing
      reads them as such.  Case mapping, [charAt] and [slice] work byte by
      byte and are those of JavaScript on ASCII text ([ascii_text]), which
      is what coin ids are made of; the properties that state an upper-cased
      or capitalized text are stated of ASCII text.
    - [JS]: the values a JSON payload is made of and the host operations
      the script applies to them: truthiness, property reads, the numeric
      and string coercions of ECMA-262, number formatting of ECMA-402 for
      the en-US locale, Date construction.  Numbers are binary64 floats
      ([PrimFloat.float]).
    - [Page]: the mutable state the script owns (its two globals, the
      three DOM regions it writes, the console and the requests it has
      issued) and a state monad with exceptions in which a throw keeps the
      writes made before it, as in JavaScript.
    - [Main]: the script's own functions, under their source names, and its
      event loop.
    - [Payload], [Effect], [Sample], [Reach]: the shapes of payloads, a
      pure summary of what each render function does, sample payloads, and
      the pages the event loop can reach.

    What is taken from the environment: the page markup contains the
    elements [priceTable], [alertsList] and [priceChart]; [Plotly.newPlot]
    shows the plot it is given in place of the previous one; an object's
    property list is in enumeration order and has no repeated key, as
    [JSON.parse] builds it; number formatting follows ECMA-402 as of its
    2023 edition, where a Number is formatted from its shortest decimal
    numeral.

    The properties follow the definitions. *)

From Stdlib Require Import ZArith NArith String Ascii List Bool Lia.
From Stdlib Require Import Floats DecimalString.
Import ListNotations.

Set Warnings "-inexact-float,-register-all".

Local Open Scope list_scope.
Local Open Scope string_scope.

(** ** Results of host operations that may throw *)

Inductive exn : Type :=
| TypeError.

Inductive result (A : Type) : Type :=
| Ok (a : A)
| Throw (e : exn).

Arguments Ok {A} a.
Arguments Throw {A} e.

Definition rbind {A B : Type} (c : result A) (k : A -> result B) : result B :=
  match c with
  | Ok a => k a
  | Throw e => Throw e
  end.

Declare Scope result_scope.
Delimit Scope result_scope with res.
Notation "x <- c ;; k" := (rbind c (fun x => k))
  (at level 61, c at next level, right associativity) : result_scope.

(** [mapR f xs]: apply a callback that may throw to each element, left to
    right, stopping at the first throw. *)
Fixpoint mapR {A B : Type} (f : A -> result B) (xs : list A) : result (list B) :=
  match xs with
  | [] => Ok []
  | a :: rest =>
      (b <- f a ;;
       bs <- mapR f rest ;;
       Ok (b :: bs))%res
  end.

(** ** Text *)

Module Text.

(** The double-quote character, for markup attributes. *)
Definition dquote : string := String (ascii_of_nat 34) EmptyString.

(** Line feed, as it occurs inside the script's template literals. *)
Definition lf : string := String (ascii_of_nat 10) EmptyString.

Fixpoint spaces (n : nat) : string :=
  match n with
  | O => EmptyString
  | S k => String " " (spaces k)
  end.

(** Text made of ASCII characters only. *)
Fixpoint ascii_text (s : string) : bool :=
  match s with
  | EmptyString => true
  | String c rest => (nat_of_ascii c <? 128)%nat && ascii_text rest
  end.

Definition is_lower (c : ascii) : bool :=
  ((97 <=? nat_of_ascii c) && (nat_of_ascii c <=? 122))%nat.

Definition upper_char (c : ascii) : ascii :=
  if is_lower c then ascii_of_nat (nat_of_ascii c - 32) else c.

(** [String.prototype.toUpperCase]. *)
Fixpoint toUpperCase (s : string) : string :=
  match s with
  | EmptyString => EmptyString
  | String c rest => String (upper_char c) (toUpperCase rest)
  end.

(** [String.prototype.charAt]: the one-character string at [i], or the
    empty string past the end. *)
Fixpoint charAt (s : string) (i : nat) : string :=
  match s, i with
  | EmptyString, _ => EmptyString
  | String c _, O => String c EmptyString
  | String _ rest, S k => charAt rest k
  end.

(** [String.prototype.slice] with a single non-negative start index. *)
Fixpoint slice (s : string) (start : nat) {struct start} : string :=
  match start, s with
  | O, _ => s
  | S k, EmptyString => EmptyString
  | S k, String _ rest => slice rest k
  end.

(** Decimal numeral of a natural number, as JavaScript prints an integer. *)
Definition decimal (n : N) : string := NilZero.string_of_uint (N.to_uint n).

Fixpoint join (sep : string) (parts : list string) : string :=
  match parts with
  | [] => EmptyString
  | [p] => p
  | p :: rest => p ++ sep ++ join sep rest
  end.

Fixpoint repeat_char (c : ascii) (n : nat) : string :=
  match n with
  | O => EmptyString
  | S k => String c (repeat_char c k)
  end.

Definition is_digit (c : ascii) : bool :=
  ((48 <=? nat_of_ascii c) && (nat_of_ascii c <=? 57))%nat.

Fixpoint all_digits (s : string) : bool :=
  match s with
  | EmptyString => true
  | String c rest => is_digit c && all_digits rest
  end.

(** [contains needle s]: [needle] occurs in [s]. *)
Definition contains (needle s : string) : Prop :=
  exists before after, s = before ++ needle ++ after.

(** The same, decided ([String.prototype.includes]). *)
Fixpoint includes (needle s : string) : bool :=
  if prefix needle s then true
  else
    match s with
    | EmptyString => false
    | String _ rest => includes needle rest
    end.

End Text.

(** ** JavaScript values and host operations *)

Module JS.

Import Text.

(** A value as [JSON.parse] (or socket.io's decoder) produces it, plus
    [VUndefined], which reading a missing property yields.  An object is the
    list of its own properties in enumeration order (the order of
    [Object.entries]); a well-formed object has no repeated key. *)
Inductive value : Type :=
| VUndefined
| VNull
| VBool (b : bool)
| VNum (n : float)
| VStr (s : string)
| VArr (elems : list value)
| VObj (props : list (string * value)).

(** Own-property lookup in an object's property list. *)
Fixpoint lookup (key : string) (props : list (string * value)) : option value :=
  match props with
  | [] => None
  | (k, v) :: rest => if String.eqb k key then Some v else lookup key rest
  end.

(** [ToBoolean] (ECMA-262 7.1.2). *)
Definition ToBoolean (v : value) : bool :=
  match v with
  | VUndefined | VNull => false
  | VBool b => b
  | VNum n => negb (PrimFloat.is_zero n || PrimFloat.is_nan n)
  | VStr s => negb (String.eqb s EmptyString)
  | VArr _ | VObj _ => true
  end.

(** [a || b] on values. *)
Definition or_else (a b : value) : value :=
  if ToBoolean a then a else b.

(** The property names the script reads with a fixed name ([info.usd],
    [alert.type], [d.timestamp], ...). *)
Inductive field : Type :=
| usd | usd_24h_change | rsi | ma_7 | ma_30 | alerts
| type | threshold
| timestamp | price
| latest_data | price_history.

Definition field_name (f : field) : string :=
  match f with
  | usd => "usd"
  | usd_24h_change => "usd_24h_change"
  | rsi => "rsi"
  | ma_7 => "ma_7"
  | ma_30 => "ma_30"
  | alerts => "alerts"
  | type => "type"
  | threshold => "threshold"
  | timestamp => "timestamp"
  | price => "price"
  | latest_data => "latest_data"
  | price_history => "price_history"
  end.

(** Members that every object inherits from [Object.prototype] in a browser
    (ECMA-262 20.1.3 and Annex B.2.2): reading one of these names on an
    object that does not define it itself yields a built-in, not
    [undefined]. *)
Definition object_prototype_members : list string :=
  [ "constructor"; "hasOwnProperty"; "isPrototypeOf"; "propertyIsEnumerable";
    "toLocaleString"; "toString"; "valueOf"; "__proto__";
    "__defineGetter__"; "__defineSetter__"; "__lookupGetter__";
    "__lookupSetter__" ].

(** Members of [Array.prototype] with string names (ECMA-262 23.1.3, as of
    the 2024 edition; [constructor], [toString] and [toLocaleString] are
    in the list above). *)
Definition array_prototype_members : list string :=
  [ "at"; "concat"; "copyWithin"; "entries"; "every"; "fill"; "filter";
    "find"; "findIndex"; "findLast"; "findLastIndex"; "flat"; "flatMap";
    "forEach"; "includes"; "indexOf"; "join"; "keys"; "lastIndexOf"; "map";
    "pop"; "push"; "reduce"; "reduceRight"; "reverse"; "shift"; "slice";
    "some"; "sort"; "splice"; "toReversed"; "toSorted"; "toSpliced";
    "unshift"; "values"; "with" ].

(** Members of [String.prototype] (ECMA-262 22.1.3 and Annex B.2.2). *)
Definition string_prototype_members : list string :=
  [ "at"; "charAt"; "charCodeAt"; "codePointAt"; "concat"; "endsWith";
    "includes"; "indexOf"; "isWellFormed"; "lastIndexOf"; "localeCompare";
    "match"; "matchAll"; "normalize"; "padEnd"; "padStart"; "repeat";
    "replace"; "replaceAll"; "search"; "slice"; "split"; "startsWith";
    "substring"; "toLocaleLowerCase"; "toLocaleUpperCase"; "toLowerCase";
    "toUpperCase"; "toWellFormed"; "trim"; "trimEnd"; "trimStart";
    "substr"; "anchor"; "big"; "blink"; "bold"; "fixed"; "fontcolor";
    "fontsize"; "italics"; "link"; "small"; "strike"; "sub"; "sup";
    "trimLeft"; "trimRight" ].

(** Members of [Number.prototype] (ECMA-262 21.1.3). *)
Definition number_prototype_members : list string :=
  [ "toExponential"; "toFixed"; "toPrecision" ].

Definition mem (key : string) (names : list string) : bool :=
  existsb (String.eqb key) names.

(** What a keyed read [o[key]] can yield: a payload value, or a built-in
    reached through the prototype chain.  Built-ins are truthy; only
    [Array.prototype] among them has a [map] method (it is itself an empty
    array). *)
Inductive member : Type :=
| Data (v : value)
| BuiltinFunction
| BuiltinPrototype (of_array : bool).

(** The element of [xs] whose index prints as [key], if any. *)
Fixpoint index_lookup (key : string) (xs : list value) (i : N) : option value :=
  match xs with
  | [] => None
  | v :: rest =>
      if String.eqb (decimal i) key then Some v
      else index_lookup key rest (N.succ i)
  end.

Fixpoint string_index_lookup (key : string) (s : string) (i : N) : option value :=
  match s with
  | EmptyString => None
  | String c rest =>
      if String.eqb (decimal i) key then Some (VStr (String c EmptyString))
      else string_index_lookup key rest (N.succ i)
  end.

(** A name found on the prototype chain of a value whose own prototype has
    the members [own_proto]. *)
Definition inherited (key : string) (own_proto : list string) (is_array : bool)
  : member :=
  if String.eqb key "__proto__" then BuiltinPrototype is_array
  else if mem key own_proto || mem key object_prototype_members
       then BuiltinFunction
       else Data VUndefined.

(** The keyed read [o[key]] for an arbitrary string key
    (ECMA-262 13.3.2, 7.3.2, 10.1.8). *)
Definition GetKeyed (o : value) (key : string) : result member :=
  match o with
  | VUndefined | VNull => Throw TypeError
  | VObj props =>
      Ok (match lookup key props with
          | Some v => Data v
          | None => inherited key [] false
          end)
  | VArr xs =>
      Ok (match index_lookup key xs 0 with
          | Some v => Data v
          | None =>
              if String.eqb key "length"
              then Data (VNum (PrimFloat.of_uint63 (Uint63.of_Z (Z.of_nat (List.length xs)))))
              else inherited key array_prototype_members true
          end)
  | VStr s =>
      Ok (match string_index_lookup key s 0 with
          | Some v => Data v
          | None =>
              if String.eqb key "length"
              then Data (VNum (PrimFloat.of_uint63 (Uint63.of_Z (Z.of_nat (String.length s)))))
              else inherited key string_prototype_members false
          end)
  | VNum _ => Ok (inherited key number_prototype_members false)
  | VBool _ => Ok (inherited key [] false)
  end.

(** The read [o.f] of one of the script's fixed field names.  None of them
    is an index, [length], or a member of a built-in prototype (lemma
    [field_not_inherited] below), so on an object it is the own property or
    [undefined] and on any other non-nullish value it is [undefined]. *)
Definition Get (o : value) (f : field) : result value :=
  match o with
  | VUndefined | VNull => Throw TypeError
  | VObj props =>
      Ok (match lookup (field_name f) props with
          | Some v => v
          | None => VUndefined
          end)
  | _ => Ok VUndefined
  end.

(** [Object.entries] (ECMA-262 20.1.2.5): own enumerable string-keyed
    properties, in order. *)
Fixpoint indexed (xs : list value) (i : N) : list (string * value) :=
  match xs with
  | [] => []
  | v :: rest => (decimal i, v) :: indexed rest (N.succ i)
  end.

Fixpoint characters (s : string) : list value :=
  match s with
  | EmptyString => []
  | String c rest => VStr (String c EmptyString) :: characters rest
  end.

Definition Object_entries (o : value) : result (list (string * value)) :=
  match o with
  | VUndefined | VNull => Throw TypeError
  | VObj props => Ok props
  | VArr xs => Ok (indexed xs 0)
  | VStr s => Ok (indexed (characters s) 0)
  | VNum _ | VBool _ => Ok []
  end.

(** Strict equality with a string constant, [v === 'text']. *)
Definition strict_equals_string (v : value) (text : string) : bool :=
  match v with
  | VStr s => String.eqb s text
  | _ => false
  end.

(** *** Numbers: reading numeric text *)

(** What the grammar [StringNumericLiteral] (ECMA-262 7.1.4.1) makes of a
    string: nothing, white space only, an infinity, a decimal literal
    [mantissa * 10 ^ exp10] with its sign, or a binary, octal or
    hexadecimal integer. *)
Inductive literal : Type :=
| LitInvalid
| LitEmpty
| LitInfinity (negative : bool)
| LitDecimal (negative : bool) (mantissa : N) (exp10 : Z)
| LitInteger (n : N).

(** White space and line terminators of the grammar (ECMA-262 12.2 and
    12.3), read off the UTF-8 bytes of the text: the one-byte characters
    TAB, LF, VT, FF, CR and SP; U+00A0 in two bytes; U+1680, U+2000 to
    U+200A, U+2028, U+2029, U+202F, U+205F, U+3000 and U+FEFF in three. *)
Definition is_space (c : ascii) : bool :=
  let n := nat_of_ascii c in
  ((9 <=? n) && (n <=? 13) || (n =? 32))%nat.

Definition is_space2 (a b : ascii) : bool :=
  ((N_of_ascii a =? 194) && (N_of_ascii b =? 160))%N.

Definition is_space3 (a b c : ascii) : bool :=
  let x := N_of_ascii a in
  let y := N_of_ascii b in
  let z := N_of_ascii c in
  ((x =? 225) && (y =? 154) && (z =? 128)
   || (x =? 226) && (y =? 128)
      && ((128 <=? z) && (z <=? 138) || (z =? 168) || (z =? 169) || (z =? 175))
   || (x =? 226) && (y =? 129) && (z =? 159)
   || (x =? 227) && (y =? 128) && (z =? 128)
   || (x =? 239) && (y =? 187) && (z =? 191))%N.

(** Leading white space removed. *)
Fixpoint drop_spaces (cs : list ascii) : list ascii :=
  match cs with
  | a :: rest =>
      if is_space a then drop_spaces rest
      else
        match rest with
        | b :: rest2 =>
            if is_space2 a b then drop_spaces rest2
            else
              match rest2 with
              | c :: rest3 => if is_space3 a b c then drop_spaces rest3 else cs
              | [] => cs
              end
        | [] => cs
        end
  | [] => []
  end.

(** Trailing white space removed, on the reversed text: the bytes of a
    character come last byte first. *)
Fixpoint drop_spaces_reversed (cs : list ascii) : list ascii :=
  match cs with
  | c :: rest =>
      if is_space c then drop_spaces_reversed rest
      else
        match rest with
        | b :: rest2 =>
            if is_space2 b c then drop_spaces_reversed rest2
            else
              match rest2 with
              | a :: rest3 =>
                  if is_space3 a b c then drop_spaces_reversed rest3 else cs
              | [] => cs
              end
        | [] => cs
        end
  | [] => []
  end.

Definition trim (cs : list ascii) : list ascii :=
  rev (drop_spaces_reversed (rev (drop_spaces cs))).

(** Value of a digit in the given radix, if it is one. *)
Definition digit_value (radix : N) (c : ascii) : option N :=
  let n := N.of_nat (nat_of_ascii c) in
  let d :=
    (if (48 <=? n) && (n <=? 57) then Some (n - 48)
     else if (97 <=? n) && (n <=? 102) then Some (n - 87)
     else if (65 <=? n) && (n <=? 70) then Some (n - 55)
     else None)%N in
  match d with
  | Some v => if (v <? radix)%N then Some v else None
  | None => None
  end.

(** Longest run of digits at the head of [cs]: its value continuing from
    [acc], how many digits were read, and the rest. *)
Fixpoint digits (radix : N) (cs : list ascii) (acc : N) (count : nat)
  : N * nat * list ascii :=
  match cs with
  | c :: rest =>
      match digit_value radix c with
      | Some d => digits radix rest (acc * radix + d)%N (S count)
      | None => (acc, count, cs)
      end
  | [] => (acc, count, [])
  end.

(** A whole string of digits in the given radix, at least one. *)
Definition integer_literal (radix : N) (cs : list ascii) : literal :=
  match digits radix cs 0 0 with
  | (n, S _, []) => LitInteger n
  | _ => LitInvalid
  end.

(** Optional exponent part: [e] or [E], optional sign, at least one digit;
    yields the exponent and the rest. *)
Definition exponent_part (cs : list ascii) : option (Z * list ascii) :=
  match cs with
  | ("e" | "E")%char :: rest =>
      let '(negative, body) :=
        match rest with
        | "-"%char :: r => (true, r)
        | "+"%char :: r => (false, r)
        | _ => (false, rest)
        end in
      match digits 10 body 0 0 with
      | (n, S _, tail) => Some (if negative then (- Z.of_N n)%Z else Z.of_N n, tail)
      | _ => None
      end
  | _ => Some (0%Z, cs)
  end.

(** [StrUnsignedDecimalLiteral] other than [Infinity]: digits, an optional
    point and fraction digits (one of the two runs being non-empty), an
    optional exponent, and nothing after. *)
Definition unsigned_decimal (negative : bool) (cs : list ascii) : literal :=
  let '(int_value, int_count, after_int) := digits 10 cs 0 0 in
  let '(mantissa, frac_count, after_frac) :=
    match after_int with
    | "."%char :: r => digits 10 r int_value 0
    | _ => (int_value, O, after_int)
    end in
  match (int_count + frac_count)%nat with
  | O => LitInvalid
  | S _ =>
      match exponent_part after_frac with
      | Some (e, []) => LitDecimal negative mantissa (e - Z.of_nat frac_count)
      | _ => LitInvalid
      end
  end.

Definition Infinity_text : list ascii := list_ascii_of_string "Infinity".

Definition list_ascii_eqb (a b : list ascii) : bool :=
  String.eqb (string_of_list_ascii a) (string_of_list_ascii b).

Definition signed_decimal (negative : bool) (cs : list ascii) : literal :=
  if list_ascii_eqb cs Infinity_text then LitInfinity negative
  else unsigned_decimal negative cs.

Definition parse_numeric (s : string) : literal :=
  match trim (list_ascii_of_string s) with
  | [] => LitEmpty
  | "0"%char :: ("x" | "X")%char :: rest => integer_literal 16 rest
  | "0"%char :: ("o" | "O")%char :: rest => integer_literal 8 rest
  | "0"%char :: ("b" | "B")%char :: rest => integer_literal 2 rest
  | "-"%char :: rest => signed_decimal true rest
  | "+"%char :: rest => signed_decimal false rest
  | cs => signed_decimal false cs
  end.

(** *** Numbers: rounding to binary64 *)

Definition pow10 (e : Z) : Z := (10 ^ e)%Z.

(** The binary64 value nearest to [n * 10 ^ e10] for [n > 0] (ties to even,
    overflow to infinity, underflow to zero), with the given sign. *)
Definition round_decimal (negative : bool) (n : N) (e10 : Z) : spec_float :=
  match n with
  | N0 => S754_zero negative
  | Npos p =>
      if (0 <=? e10)%Z then
        binary_normalize prec emax
          ((if negative then Zneg p else Zpos p) * pow10 e10)%Z 0 negative
      else
        let '(q, e, l) :=
          SFdiv_core_binary prec emax (Zpos p) 0 (pow10 (- e10)) 0 in
        binary_round_aux prec emax negative q e l
  end.

(** [StringToNumber] (ECMA-262 7.1.4.1.1). *)
Definition StringToNumber (s : string) : float :=
  match parse_numeric s with
  | LitInvalid => nan
  | LitEmpty => zero
  | LitInfinity negative => if negative then neg_infinity else infinity
  | LitDecimal negative m e => SF2Prim (round_decimal negative m e)
  | LitInteger n => SF2Prim (round_decimal false n 0)
  end.

(** *** Numbers: printing ([Number::toString], ECMA-262 6.1.6.1.20) *)

(** A positive finite float [m * 2 ^ e] as a fraction. *)
Definition fraction_of (m : positive) (e : Z) : Z * Z :=
  if (0 <=? e)%Z then (Zpos m * 2 ^ e, 1)%Z else (Zpos m, 2 ^ (- e))%Z.

Definition digit_count (n : Z) : Z :=
  Z.of_nat (String.length (decimal (Z.to_N n))).

(** [floor (log10 (a / b))] for positive [a] and [b]. *)
Definition floor_log10 (a b : Z) : Z :=
  let guess := (digit_count a - digit_count b)%Z in
  let at_least :=
    if (0 <=? guess)%Z then (b * pow10 guess <=? a)%Z
    else (b <=? a * pow10 (- guess))%Z in
  if at_least then guess else (guess - 1)%Z.

(** Quotient and remainder of [(a / b) / 10 ^ t] taken as a fraction. *)
Definition scaled (a b t : Z) : Z * Z * Z :=
  let '(num, den) :=
    if (0 <=? t)%Z then (a, b * pow10 t)%Z else (a * pow10 (- t), b)%Z in
  (num / den, num mod den, den)%Z.

(** Does [s * 10 ^ t] read back as the float [x]? *)
Definition reads_back (x : float) (s t : Z) : bool :=
  PrimFloat.eqb (SF2Prim (round_decimal false (Z.to_N s) t)) x.

(** The [k]-digit candidates for printing [x = a / b]: the two integers
    around [x / 10 ^ t] for the [t] that gives [k] digits; the one that
    reads back as [x] and is nearest to it (the even one in a tie), with its
    power of ten. *)
Definition candidate (x : float) (a b : Z) (big_e : Z) (k : Z) : option (Z * Z) :=
  let t := (big_e - k + 1)%Z in
  let '(lo, r, den) := scaled a b t in
  let hi := if (r =? 0)%Z then lo else (lo + 1)%Z in
  let lo_ok := (pow10 (k - 1) <=? lo)%Z && reads_back x lo t in
  let hi_ok := reads_back x hi t in
  let pick_hi :=
    if (pow10 k <=? hi)%Z then Some (pow10 (k - 1), (t + 1)%Z) else Some (hi, t) in
  match lo_ok, hi_ok with
  | false, false => None
  | true, false => Some (lo, t)
  | false, true => pick_hi
  | true, true =>
      match (2 * r ?= den)%Z with
      | Lt => Some (lo, t)
      | Gt => pick_hi
      | Eq => if Z.even lo then Some (lo, t) else pick_hi
      end
  end.

(** Shortest digits: the least [k] from [k] upwards that has a candidate. *)
Fixpoint shortest (x : float) (a b big_e : Z) (k : Z) (fuel : nat) : Z * Z :=
  match candidate x a b big_e k with
  | Some st => st
  | None =>
      match fuel with
      | O => let '(lo, _, _) := scaled a b (big_e - k + 1) in (lo, (big_e - k + 1)%Z)
      | S f => shortest x a b big_e (k + 1) f
      end
  end.

(** Layout of the digits [s] (a [k]-digit numeral) with decimal exponent
    [n], where the number is [s * 10 ^ (n - k)]. *)
Definition layout_digits (s : string) (n : Z) : string :=
  let k := Z.of_nat (String.length s) in
  if ((k <=? n) && (n <=? 21))%Z then
    s ++ repeat_char "0" (Z.to_nat (n - k))
  else if ((0 <? n) && (n <=? 21))%Z then
    substring 0 (Z.to_nat n) s ++ "." ++ slice s (Z.to_nat n)
  else if ((-6 <? n) && (n <=? 0))%Z then
    "0." ++ repeat_char "0" (Z.to_nat (- n)) ++ s
  else
    let e := (n - 1)%Z in
    let exponent :=
      "e" ++ (if (e <? 0)%Z then "-" else "+") ++ decimal (Z.to_N (Z.abs e)) in
    if (k =? 1)%Z then s ++ exponent
    else substring 0 1 s ++ "." ++ slice s 1 ++ exponent.

Definition Number_toString (x : float) : string :=
  match Prim2SF x with
  | S754_nan => "NaN"
  | S754_zero _ => "0"
  | S754_infinity negative => if negative then "-Infinity" else "Infinity"
  | S754_finite negative m e =>
      let '(a, b) := fraction_of m e in
      let '(s, t) := shortest (PrimFloat.abs x) a b (floor_log10 a b) 1 17 in
      let text := decimal (Z.to_N s) in
      (if negative then "-" else "")
      ++ layout_digits text (t + Z.of_nat (String.length text))
  end.

(** *** Coercions *)

(** [ToString] (ECMA-262 7.1.17).  An array prints its elements joined by
    commas, [null] and [undefined] elements as nothing (23.1.3.18).  A plain
    object prints as [[object Object]] through the inherited [toString];
    one that carries its own [toString] property shadows the inherited
    method with a value that cannot be called, and the conversion throws
    (7.1.1.1). *)
Fixpoint ToString (v : value) : result string :=
  match v with
  | VUndefined => Ok "undefined"
  | VNull => Ok "null"
  | VBool b => Ok (if b then "true" else "false")
  | VNum n => Ok (Number_toString n)
  | VStr s => Ok s
  | VArr elems =>
      (parts <-
         (fix elements (vs : list value) : result (list string) :=
            match vs with
            | [] => Ok []
            | e :: rest =>
                p <- match e with
                     | VUndefined | VNull => Ok EmptyString
                     | _ => ToString e
                     end ;;
                ps <- elements rest ;;
                Ok (p :: ps)
            end) elems ;;
       Ok (join "," parts))%res
  | VObj props =>
      match lookup "toString" props with
      | Some _ => Throw TypeError
      | None => Ok "[object Object]"
      end
  end.

(** [ToNumber] (ECMA-262 7.1.4), through [ToPrimitive] for arrays and
    objects. *)
Definition ToNumber (v : value) : result float :=
  match v with
  | VUndefined => Ok nan
  | VNull => Ok zero
  | VBool b => Ok (if b then one else zero)
  | VNum n => Ok n
  | VStr s => Ok (StringToNumber s)
  | VArr _ | VObj _ => (s <- ToString v ;; Ok (StringToNumber s))%res
  end.

(** [v >= 0]. *)
Definition ge_zero (v : value) : result bool :=
  (n <- ToNumber v ;; Ok (PrimFloat.leb zero n))%res.

(** [v * k] for a numeric constant [k]. *)
Definition times (v : value) (k : float) : result float :=
  (n <- ToNumber v ;; Ok (PrimFloat.mul n k))%res.

(** *** [Intl.NumberFormat] for en-US with fixed fraction digits (ECMA-402) *)

(** The mathematical value a formatter works on
    ([ToIntlMathematicalValue], ECMA-402 15.5.16): not-a-number, an
    infinity, negative zero, or an exact fraction [num / den] with
    [den > 0]. *)
Inductive mathval : Type :=
| MNaN
| MInfinity (negative : bool)
| MNegativeZero
| MFinite (num den : Z).

Definition signed (negative : bool) (z : Z) : Z :=
  if negative then (- z)%Z else z.

(** Exact value of a decimal literal, unless its magnitude overflows or
    underflows binary64, in which case it counts as infinite or zero. *)
Definition exact_decimal (negative : bool) (m : N) (e : Z) : mathval :=
  match round_decimal false m e with
  | S754_infinity _ => MInfinity negative
  | S754_zero _ => if negative then MNegativeZero else MFinite 0 1
  | _ =>
      if (0 <=? e)%Z then MFinite (signed negative (Z.of_N m * pow10 e)) 1
      else MFinite (signed negative (Z.of_N m)) (pow10 (- e))
  end.

Definition StringIntlMV (s : string) : mathval :=
  match parse_numeric s with
  | LitInvalid => MNaN
  | LitEmpty => MFinite 0 1
  | LitInfinity negative => MInfinity negative
  | LitDecimal negative m e => exact_decimal negative m e
  | LitInteger n => exact_decimal false n 0
  end.

(** A Number is read through its shortest decimal numeral, so that the
    digits that get rounded are the ones [Number::toString] shows. *)
Definition ToIntlMathematicalValue (v : value) : result mathval :=
  match v with
  | VStr s => Ok (StringIntlMV s)
  | VArr _ | VObj _ => (s <- ToString v ;; Ok (StringIntlMV s))%res
  | _ =>
      (x <- ToNumber v ;;
       Ok (match Prim2SF x with
           | S754_zero true => MNegativeZero
           | _ => StringIntlMV (Number_toString x)
           end))%res
  end.

Record NumberFormat : Type := {
  minimumFractionDigits : nat;
  maximumFractionDigits : nat
}.

(** Thousands grouping of an integer numeral, given as its characters from
    the least significant end; [run] counts the digits since the last
    separator. *)
Fixpoint group_reversed (digits_rev : list ascii) (run : nat) : list ascii :=
  match digits_rev with
  | [] => []
  | d :: rest =>
      match run with
      | 3%nat => ","%char :: d :: group_reversed rest 1
      | _ => d :: group_reversed rest (S run)
      end
  end.

Definition group_thousands (numeral : string) : string :=
  string_of_list_ascii
    (rev (group_reversed (rev (list_ascii_of_string numeral)) 0)).

(** Fraction digits: [n] written with [width] digits. *)
Definition pad_zeros (width : nat) (n : Z) : string :=
  let text := decimal (Z.to_N n) in
  repeat_char "0" (width - String.length text) ++ text.

(** Drop trailing zeros while more than [keep] digits remain. *)
Fixpoint strip_zeros_reversed (digits_rev : list ascii) (extra : nat) : list ascii :=
  match extra, digits_rev with
  | S k, "0"%char :: rest => strip_zeros_reversed rest k
  | _, _ => digits_rev
  end.

Definition strip_trailing_zeros (keep : nat) (text : string) : string :=
  string_of_list_ascii
    (rev (strip_zeros_reversed (rev (list_ascii_of_string text))
            (String.length text - keep))).

(** A finite magnitude [num / den] rounded half away from zero to the
    maximum number of fraction digits, grouped, with its sign. *)
Definition format_finite (nf : NumberFormat) (negative : bool) (num den : Z) : string :=
  let scale := pow10 (Z.of_nat (maximumFractionDigits nf)) in
  let n := ((2 * num * scale + den) / (2 * den))%Z in
  let fraction :=
    strip_trailing_zeros (minimumFractionDigits nf)
      (match maximumFractionDigits nf with
       | O => EmptyString
       | width => pad_zeros width (n mod scale)
       end) in
  (if negative then "-" else "")
  ++ group_thousands (decimal (Z.to_N (n / scale)))
  ++ (if String.eqb fraction EmptyString then "" else "." ++ fraction).

(** The infinity sign of the en-US locale (U+221E, in UTF-8). *)
Definition infinity_sign : string :=
  String (ascii_of_nat 226) (String (ascii_of_nat 136)
    (String (ascii_of_nat 158) EmptyString)).

Definition format_mathval (nf : NumberFormat) (x : mathval) : string :=
  match x with
  | MNaN => "NaN"
  | MInfinity negative => (if negative then "-" else "") ++ infinity_sign
  | MNegativeZero => format_finite nf true 0 1
  | MFinite num den => format_finite nf (num <? 0)%Z (Z.abs num) den
  end.

(** [nf.format(v)] (ECMA-402 15.3.3, 15.5.6). *)
Definition NumberFormat_format (nf : NumberFormat) (v : value) : result string :=
  (x <- ToIntlMathematicalValue v ;; Ok (format_mathval nf x))%res.

(** *** Dates *)

(** A [Date] object, by its time value in milliseconds (NaN when
    invalid). *)
Record Date : Type := { time_value : float }.

(** Truncation toward zero of a finite float. *)
Definition truncate (t : float) : float :=
  match Prim2SF t with
  | S754_finite negative m e =>
      if (0 <=? e)%Z then t
      else SF2Prim (binary_normalize prec emax
                      (signed negative (Z.shiftr (Zpos m) (- e))) 0 false)
  | _ => t
  end.

(** [TimeClip] (ECMA-262 21.4.1.31). *)
Definition TimeClip (t : float) : float :=
  if negb (PrimFloat.is_finite t) then nan
  else if PrimFloat.ltb 8.64e15 (PrimFloat.abs t) then nan
  else PrimFloat.add (truncate t) zero.

(** [new Date(ms)] for a Number argument. *)
Definition new_Date (ms : float) : Date := {| time_value := TimeClip ms |}.

End JS.

(** ** The page: what the script owns and writes *)

Module Page.

Import JS.

(** A table row as the script builds it: the markup assigned to its
    [innerHTML] and the coin its click listener passes to [selectCoin]. *)
Record tr : Type := {
  tr_innerHTML : string;
  tr_click : string
}.

(** An alert entry: a [div] with a class and markup. *)
Record div : Type := {
  className : string;
  innerHTML : string
}.

(** The arguments of [Plotly.newPlot]: one trace and a layout. *)
Record trace : Type := {
  trace_x : list Date;
  trace_y : list value;
  trace_type : string;
  trace_name : string;
  trace_line_color : string
}.

Record layout : Type := {
  paper_bgcolor : string;
  plot_bgcolor : string;
  font_color : string;
  xaxis_gridcolor : string;
  yaxis_gridcolor : string
}.

Record plot : Type := {
  plot_data : list trace;
  plot_layout : layout
}.

(** The script's globals ([selectedCoin], [priceHistory]), the children of
    the elements [priceTable] and [alertsList], the plot last drawn in
    [priceChart], the console, and the URLs requested so far.  The page
    markup is assumed to contain the three elements. *)
Record page : Type := {
  selectedCoin : string;
  priceHistory : value;
  priceTable : list tr;
  alertsList : list div;
  priceChart : option plot;
  console : list string;
  requests : list string
}.

Definition set_selectedCoin (coin : string) (p : page) : page :=
  {| selectedCoin := coin; priceHistory := priceHistory p;
     priceTable := priceTable p; alertsList := alertsList p;
     priceChart := priceChart p; console := console p;
     requests := requests p |}.

Definition set_priceHistory (h : value) (p : page) : page :=
  {| selectedCoin := selectedCoin p; priceHistory := h;
     priceTable := priceTable p; alertsList := alertsList p;
     priceChart := priceChart p; console := console p;
     requests := requests p |}.

Definition set_priceTable (rows : list tr) (p : page) : page :=
  {| selectedCoin := selectedCoin p; priceHistory := priceHistory p;
     priceTable := rows; alertsList := alertsList p;
     priceChart := priceChart p; console := console p;
     requests := requests p |}.

Definition set_alertsList (entries : list div) (p : page) : page :=
  {| selectedCoin := selectedCoin p; priceHistory := priceHistory p;
     priceTable := priceTable p; alertsList := entries;
     priceChart := priceChart p; console := console p;
     requests := requests p |}.

Definition set_priceChart (c : option plot) (p : page) : page :=
  {| selectedCoin := selectedCoin p; priceHistory := priceHistory p;
     priceTable := priceTable p; alertsList := alertsList p;
     priceChart := c; console := console p;
     requests := requests p |}.

Definition set_console (lines : list string) (p : page) : page :=
  {| selectedCoin := selectedCoin p; priceHistory := priceHistory p;
     priceTable := priceTable p; alertsList := alertsList p;
     priceChart := priceChart p; console := lines;
     requests := requests p |}.

(** A computation of the script: it reads and writes the page and either
    returns or throws; the page it leaves behind is kept in both cases. *)
Definition M (A : Type) : Type := page -> result A * page.

Definition ret {A : Type} (a : A) : M A := fun p => (Ok a, p).

Definition bind {A B : Type} (c : M A) (k : A -> M B) : M B :=
  fun p =>
    match c p with
    | (Ok a, p') => k a p'
    | (Throw e, p') => (Throw e, p')
    end.

Definition lift {A : Type} (r : result A) : M A := fun p => (r, p).

Definition read {A : Type} (f : page -> A) : M A := fun p => (Ok (f p), p).

Definition write (f : page -> page) : M unit := fun p => (Ok tt, f p).

Declare Scope script_scope.
Delimit Scope script_scope with js.
Notation "x <- c ;; k" := (bind c (fun x => k))
  (at level 61, c at next level, right associativity) : script_scope.
Notation "c ;; k" := (bind c (fun _ => k))
  (at level 61, right associativity) : script_scope.

(** [xs.forEach(body)] over the elements of a list. *)
Fixpoint forEach {A : Type} (xs : list A) (body : A -> M unit) : M unit :=
  match xs with
  | [] => ret tt
  | a :: rest => (body a ;; forEach rest body)%js
  end.

(** [parent.appendChild(child)]. *)
Definition appendChild_priceTable (row : tr) : M unit :=
  write (fun p => set_priceTable (priceTable p ++ [row])%list p).

Definition appendChild_alertsList (entry : div) : M unit :=
  write (fun p => set_alertsList (alertsList p ++ [entry])%list p).

(** [Plotly.newPlot('priceChart', data, layout)]: the element shows the new
    plot in place of whatever it showed. *)
Definition Plotly_newPlot (data : list trace) (l : layout) : M unit :=
  write (set_priceChart (Some {| plot_data := data; plot_layout := l |})).

Definition console_log (line : string) : M unit :=
  write (fun p => set_console (console p ++ [line])%list p).

(** The receiver of [forEach] in [info.alerts.forEach(...)]: of the values a
    payload can hold only arrays have the method; on anything else the call
    throws. *)
Definition forEach_receiver (v : value) : result (list value) :=
  match v with
  | VArr elems => Ok elems
  | _ => Throw TypeError
  end.

(** The receiver of [map] in [data.map(...)], where [data] came from a
    keyed read. *)
Definition map_receiver (m : member) : result (list value) :=
  match m with
  | Data (VArr elems) => Ok elems
  | BuiltinPrototype true => Ok []
  | _ => Throw TypeError
  end.

Definition truthy (m : member) : bool :=
  match m with
  | Data v => ToBoolean v
  | BuiltinFunction | BuiltinPrototype _ => true
  end.

End Page.

(** ** The script (main.js) *)

Module Main.

Import Text JS Page.

(** [formatNumber(num, decimals)]: the en-US formatter with exactly
    [decimals] fraction digits. *)
Definition formatNumber_decimals (num : value) (decimals : nat) : result string :=
  NumberFormat_format
    {| minimumFractionDigits := decimals; maximumFractionDigits := decimals |}
    num.

(** The formatter [formatNumber] builds when [decimals] is left at its
    default. *)
Definition two_decimals : NumberFormat :=
  {| minimumFractionDigits := 2; maximumFractionDigits := 2 |}.

(** [formatNumber(num)]: every call in the script leaves [decimals] at its
    default, 2. *)
Definition formatNumber (num : value) : result string :=
  formatNumber_decimals num 2.

(** [formatPrice(price)]. *)
Definition formatPrice (price : value) : result string :=
  (s <- formatNumber price ;; Ok ("$" ++ s))%res.

(** The markup [formatChange] returns. *)
Definition change_span (class_name sign number : string) : string :=
  "<span class=" ++ dquote ++ class_name ++ dquote ++ ">"
  ++ sign ++ number ++ "%</span>".

(** [formatChange(change)]. *)
Definition formatChange (change : value) : result string :=
  (for_sign <- ge_zero change ;;
   let sign := if for_sign : bool then "+" else "" in
   for_class <- ge_zero change ;;
   let class_name :=
     if for_class : bool then "positive-change" else "negative-change" in
   number <- formatNumber change ;;
   Ok (change_span class_name sign number))%res.

(** The template literal assigned to [row.innerHTML], with its six
    interpolations. *)
Definition row_markup (name price change rsi_text ma_7_text ma_30_text : string)
  : string :=
  lf ++ spaces 12 ++ "<td>" ++ name ++ "</td>"
  ++ lf ++ spaces 12 ++ "<td>" ++ price ++ "</td>"
  ++ lf ++ spaces 12 ++ "<td>" ++ change ++ "</td>"
  ++ lf ++ spaces 12 ++ "<td>" ++ rsi_text ++ "</td>"
  ++ lf ++ spaces 12 ++ "<td>" ++ ma_7_text ++ "</td>"
  ++ lf ++ spaces 12 ++ "<td>" ++ ma_30_text ++ "</td>"
  ++ lf ++ spaces 8.

(** [coin.charAt(0).toUpperCase() + coin.slice(1)]. *)
Definition capitalized (coin : string) : string :=
  toUpperCase (charAt coin 0) ++ slice coin 1.

(** The five interpolations of the row template that read the entry:
    [formatPrice(info.usd)], [formatChange(info.usd_24h_change)],
    [formatNumber(info.rsi || 0)], [formatPrice(info.ma_7 || 0)] and
    [formatPrice(info.ma_30 || 0)]. *)
Definition price_cell (info : value) : result string :=
  (v <- Get info usd ;; formatPrice v)%res.

Definition change_cell (info : value) : result string :=
  (v <- Get info usd_24h_change ;; formatChange v)%res.

Definition rsi_cell (info : value) : result string :=
  (v <- Get info rsi ;; formatNumber (or_else v (VNum 0)))%res.

Definition ma_7_cell (info : value) : result string :=
  (v <- Get info ma_7 ;; formatPrice (or_else v (VNum 0)))%res.

Definition ma_30_cell (info : value) : result string :=
  (v <- Get info ma_30 ;; formatPrice (or_else v (VNum 0)))%res.

(** Evaluation of the row template for one entry of the payload, left to
    right. *)
Definition row_innerHTML (coin : string) (info : value) : result string :=
  (let name := capitalized coin in
   price_text <- price_cell info ;;
   change_text <- change_cell info ;;
   rsi_text <- rsi_cell info ;;
   ma_7_text <- ma_7_cell info ;;
   ma_30_text <- ma_30_cell info ;;
   Ok (row_markup name price_text change_text rsi_text ma_7_text ma_30_text))%res.

(** [updatePriceTable(data)]. *)
Definition updatePriceTable (data : value) : M unit :=
  (write (set_priceTable []) ;;
   entries <- lift (Object_entries data) ;;
   forEach entries (fun '(coin, info) =>
     markup <- lift (row_innerHTML coin info) ;;
     appendChild_priceTable {| tr_innerHTML := markup; tr_click := coin |}))%js.

(** The trace and layout [updatePriceChart] hands to Plotly. *)
Definition chart_trace (coin : string) (timestamps : list Date) (prices : list value)
  : trace :=
  {| trace_x := timestamps;
     trace_y := prices;
     trace_type := "scatter";
     trace_name := toUpperCase coin;
     trace_line_color := "#00ff00" |}.

Definition chart_layout : layout :=
  {| paper_bgcolor := "rgba(0,0,0,0)";
     plot_bgcolor := "rgba(0,0,0,0)";
     font_color := "#ffffff";
     xaxis_gridcolor := "#404040";
     yaxis_gridcolor := "#404040" |}.

(** [d => new Date(d.timestamp * 1000)]. *)
Definition point_date (d : value) : result Date :=
  (t <- Get d timestamp ;;
   ms <- times t 1000 ;;
   Ok (new_Date ms))%res.

(** [d => d.price]. *)
Definition point_price (d : value) : result value := Get d price.

(** [updatePriceChart(coin, history)]. *)
Definition updatePriceChart (coin : string) (history : value) : M unit :=
  if negb (ToBoolean history) then ret tt
  else
    (entry <- lift (GetKeyed history coin) ;;
     if negb (truthy entry) then ret tt
     else
       data <- lift (GetKeyed history coin) ;;
       for_timestamps <- lift (map_receiver data) ;;
       timestamps <- lift (mapR point_date for_timestamps) ;;
       for_prices <- lift (map_receiver data) ;;
       prices <- lift (mapR point_price for_prices) ;;
       Plotly_newPlot [chart_trace coin timestamps prices] chart_layout)%js.

(** The template literal assigned to [alertDiv.innerHTML]. *)
Definition alert_markup (coin_text direction price_text : string) : string :=
  lf ++ spaces 20 ++ "<strong>" ++ coin_text ++ "</strong> price is "
  ++ direction ++ " " ++ price_text
  ++ lf ++ spaces 16.

(** The [div] built for one alert of [coin]. *)
Definition alertDiv (coin : string) (alert : value) : result div :=
  (type_for_class <- Get alert type ;;
   let class_name :=
     "alert alert-"
     ++ (if strict_equals_string type_for_class "high" then "high" else "low") in
   type_for_text <- Get alert type ;;
   let direction :=
     if strict_equals_string type_for_text "high" then "above" else "below" in
   threshold_value <- Get alert threshold ;;
   price_text <- formatPrice threshold_value ;;
   Ok {| className := class_name;
         innerHTML := alert_markup (toUpperCase coin) direction price_text |})%res.

(** [updateAlerts(data)]. *)
Definition updateAlerts (data : value) : M unit :=
  (write (set_alertsList []) ;;
   entries <- lift (Object_entries data) ;;
   forEach entries (fun '(coin, info) =>
     guard <- lift (Get info alerts) ;;
     if ToBoolean guard then
       list <- lift (Get info alerts) ;;
       elems <- lift (forEach_receiver list) ;;
       forEach elems (fun alert =>
         entry <- lift (alertDiv coin alert) ;;
         appendChild_alertsList entry)
     else ret tt))%js.

(** [selectCoin(coin)]. *)
Definition selectCoin (coin : string) : M unit :=
  (write (set_selectedCoin coin) ;;
   history <- read priceHistory ;;
   updatePriceChart coin history)%js.

(** [socket.on('connect', ...)]. *)
Definition on_connect : M unit := console_log "Connected to server".

(** [socket.on('price_update', (data) => ...)]. *)
Definition on_price_update (data : value) : M unit :=
  (history <- lift (Get data price_history) ;;
   write (set_priceHistory history) ;;
   latest <- lift (Get data latest_data) ;;
   updatePriceTable latest ;;
   coin <- read selectedCoin ;;
   held <- read priceHistory ;;
   updatePriceChart coin held ;;
   latest_again <- lift (Get data latest_data) ;;
   updateAlerts latest_again)%js.

(** The continuation of [fetch('/api/latest')]. *)
Definition on_latest (data : value) : M unit := updatePriceTable data.

(** The continuation of [fetch('/api/history')]. *)
Definition on_history (data : value) : M unit :=
  (write (set_priceHistory data) ;;
   coin <- read selectedCoin ;;
   held <- read priceHistory ;;
   updatePriceChart coin held)%js.

(** The page once the script has run to its end: the globals hold their
    initial values and the two initial requests are under way. *)
Definition loaded : page :=
  {| selectedCoin := "bitcoin";
     priceHistory := VObj [];
     priceTable := [];
     alertsList := [];
     priceChart := None;
     console := [];
     requests := ["/api/latest"; "/api/history"] |}.

(** What can happen next: the socket connects, a push arrives, one of the
    two responses arrives, or the user clicks the row at some position. *)
Inductive event : Type :=
| Connected
| PriceUpdate (data : value)
| LatestResponse (data : value)
| HistoryResponse (data : value)
| RowClick (position : nat).

Definition handler (ev : event) : M unit :=
  match ev with
  | Connected => on_connect
  | PriceUpdate data => on_price_update data
  | LatestResponse data => on_latest data
  | HistoryResponse data => on_history data
  | RowClick position =>
      (rows <- read priceTable ;;
       match nth_error rows position with
       | Some row => selectCoin (tr_click row)
       | None => ret tt
       end)%js
  end.

(** One turn of the event loop: an uncaught exception ends the handler and
    the page stays as the handler left it. *)
Definition step (p : page) (ev : event) : page := snd (handler ev p).

Definition run (p : page) (evs : list event) : page := fold_left step evs p.

End Main.

(** ** Payload shapes *)

Module Payload.

Import Text JS Page Main.

Definition nullish (v : value) : bool :=
  match v with
  | VUndefined | VNull => true
  | _ => false
  end.

(** A value the numeric coercions accept: converting it to a primitive does
    not throw.  Every primitive is printable; an array or object is unless
    it holds an object that carries its own [toString] property. *)
Definition printable (v : value) : bool :=
  match ToString v with
  | Ok _ => true
  | Throw _ => false
  end.

(** A primitive payload value, or an absent one. *)
Definition primitive (v : value) : bool :=
  match v with
  | VArr _ | VObj _ => false
  | _ => true
  end.

(** The field [f] of [o] as the script reads it ([undefined] when [o] has
    no such property). *)
Definition read_field (o : value) (f : field) : value :=
  match Get o f with
  | Ok v => v
  | Throw _ => VUndefined
  end.

(** An alert the renderer can show: an object (anything but [null]) whose
    threshold, if any, is printable. *)
Definition alert_ok (a : value) : bool :=
  negb (nullish a) && printable (read_field a threshold).

(** An [alerts] field the renderer accepts: missing or otherwise falsy, or
    an array of alerts. *)
Definition alerts_ok (v : value) : bool :=
  if ToBoolean v then
    match v with
    | VArr elems => forallb alert_ok elems
    | _ => false
    end
  else true.

(** A coin snapshot the renderer accepts: an object (anything but [null])
    whose five numeric fields are each missing or printable, and whose
    [alerts] field is acceptable.  Every snapshot of the data model
    (numbers, with the indicators possibly null or missing, and a list of
    alerts) is of this shape. *)
Definition snapshot_ok (info : value) : bool :=
  negb (nullish info)
  && printable (read_field info usd)
  && printable (read_field info usd_24h_change)
  && printable (read_field info rsi)
  && printable (read_field info ma_7)
  && printable (read_field info ma_30)
  && alerts_ok (read_field info alerts).

(** The snapshot of the data model, as it arrives: an object with numbers
    for [usd] and [usd_24h_change], a number, null or nothing for each
    indicator, and, if it carries alerts, a list of alerts, each an object
    with high or low for [type] and a number for [threshold]. *)
Definition number (v : value) : bool :=
  match v with
  | VNum _ => true
  | _ => false
  end.

Definition optional_number (v : value) : bool :=
  match v with
  | VNum _ | VNull | VUndefined => true
  | _ => false
  end.

Definition Alert (a : value) : bool :=
  match a with
  | VObj _ =>
      (strict_equals_string (read_field a type) "high"
       || strict_equals_string (read_field a type) "low")
      && number (read_field a threshold)
  | _ => false
  end.

Definition CoinSnapshot (info : value) : bool :=
  match info with
  | VObj _ =>
      number (read_field info usd)
      && number (read_field info usd_24h_change)
      && optional_number (read_field info rsi)
      && optional_number (read_field info ma_7)
      && optional_number (read_field info ma_30)
      && match read_field info alerts with
         | VUndefined => true
         | VArr elems => forallb Alert elems
         | _ => false
         end
  | _ => false
  end.

(** A LatestSnapshotMap: an object whose every entry is an acceptable
    snapshot. *)
Definition LatestSnapshotMap (data : value) : bool :=
  match data with
  | VObj entries => forallb (fun entry => snapshot_ok (snd entry)) entries
  | _ => false
  end.

(** A history point: an object (anything but [null]) whose timestamp, if
    any, is printable. *)
Definition point_ok (d : value) : bool :=
  negb (nullish d) && printable (read_field d timestamp).

(** A HistoryMap: an object whose every entry is an array of points. *)
Definition HistoryMap (history : value) : bool :=
  match history with
  | VObj entries =>
      forallb (fun entry =>
                 match snd entry with
                 | VArr points => forallb point_ok points
                 | _ => false
                 end) entries
  | _ => false
  end.

(** A coin id: a key that plain objects do not inherit a member for. *)
Definition coin_id (coin : string) : bool :=
  negb (mem coin object_prototype_members).

(** The entry a history map holds for a coin, if it holds one. *)
Definition history_entry (coin : string) (history : value) : option value :=
  match history with
  | VObj entries => lookup coin entries
  | _ => None
  end.

(** A coin the chart can be asked for: a coin id, or any key the history
    holds an entry of its own for. *)
Definition plottable (coin : string) (history : value) : bool :=
  coin_id coin
  || match history_entry coin history with
     | Some _ => true
     | None => false
     end.

(** [history] offers nothing to plot for [coin]: it is missing or otherwise
    falsy, or it is an object with no entry of its own under [coin], or
    with a falsy one.  An entry that is an empty array is not of this kind:
    arrays are truthy. *)
Definition no_history (coin : string) (history : value) : bool :=
  match history with
  | VObj entries =>
      match lookup coin entries with
      | None => true
      | Some entry => negb (ToBoolean entry)
      end
  | _ => negb (ToBoolean history)
  end.

End Payload.

(** ** What each render function does to the page, as a pure summary *)

Module Effect.

Import Text JS Page Main.

(** Running a loop body over a list: what the bodies appended, in order,
    up to and including the body that threw, and how the loop ended. *)
Fixpoint gather {A B : Type} (f : A -> list B * result unit) (xs : list A)
  : list B * result unit :=
  match xs with
  | [] => ([], Ok tt)
  | a :: rest =>
      match f a with
      | (out, Ok _) =>
          let '(more, r) := gather f rest in ((out ++ more)%list, r)
      | (out, Throw e) => (out, Throw e)
      end
  end.

(** A loop body that only appends to a region of the page (read by [get],
    written by [set]), as [f] describes. *)
Definition appends {A B : Type}
  (get : page -> list B) (set : list B -> page -> page)
  (body : A -> M unit) (f : A -> list B * result unit) : Prop :=
  forall a p, body a p = (snd (f a), set (get p ++ fst (f a))%list p).

(** One appended element, or a throw before anything is appended. *)
Definition one {B : Type} (r : result B) : list B * result unit :=
  match r with
  | Ok b => ([b], Ok tt)
  | Throw e => ([], Throw e)
  end.

Definition row_of (entry : string * value) : result tr :=
  (markup <- row_innerHTML (fst entry) (snd entry) ;;
   Ok {| tr_innerHTML := markup; tr_click := fst entry |})%res.

(** The rows [updatePriceTable] leaves in the table, and its outcome. *)
Definition table_effect (data : value) : list tr * result unit :=
  match Object_entries data with
  | Ok entries => gather (fun entry => one (row_of entry)) entries
  | Throw e => ([], Throw e)
  end.

Definition alerts_of (entry : string * value) : list div * result unit :=
  match Get (snd entry) alerts with
  | Ok list =>
      if ToBoolean list then
        match forEach_receiver list with
        | Ok elems => gather (fun alert => one (alertDiv (fst entry) alert)) elems
        | Throw e => ([], Throw e)
        end
      else ([], Ok tt)
  | Throw e => ([], Throw e)
  end.

(** The entries [updateAlerts] leaves in the alert list, and its outcome. *)
Definition alerts_effect (data : value) : list div * result unit :=
  match Object_entries data with
  | Ok entries => gather alerts_of entries
  | Throw e => ([], Throw e)
  end.

(** The plot [updatePriceChart] draws: none when it returns at its guard. *)
Definition chart_effect (coin : string) (history : value) : result (option plot) :=
  if negb (ToBoolean history) then Ok None
  else
    (entry <- GetKeyed history coin ;;
     if negb (truthy entry) then Ok None
     else
       points <- map_receiver entry ;;
       timestamps <- mapR point_date points ;;
       prices <- mapR point_price points ;;
       Ok (Some {| plot_data := [chart_trace coin timestamps prices];
                   plot_layout := chart_layout |}))%res.

(** The row that shows an entry of the payload: its click selects the
    entry's coin, and its markup starts with a cell holding the coin name,
    first character in upper case, the others as they are.  The upper case
    of an ASCII character: a lower-case letter (codes 97 to 122) becomes
    the letter 32 codes below it, any other character stays. *)
Definition row_for (entry : string * value) (row : tr) : Prop :=
  tr_click row = fst entry
  /\ exists cells,
       tr_innerHTML row
       = lf ++ spaces 12 ++ "<td>"
         ++ match fst entry with
            | EmptyString => EmptyString
            | String c rest =>
                let n := nat_of_ascii c in
                String
                  (ascii_of_nat
                     (if ((97 <=? n) && (n <=? 122))%nat then n - 32 else n))
                  rest
            end
         ++ "</td>" ++ cells.

End Effect.

(** ** Pages the event loop can reach *)

Module Reach.

Import JS Page Main Payload.

(** The keys of a payload map are coin ids. *)
Definition coin_keys (data : value) : bool :=
  match Object_entries data with
  | Ok entries => forallb (fun entry => coin_id (fst entry)) entries
  | Throw _ => true
  end.

(** An event whose latest data, if it carries any, is keyed by coin ids. *)
Definition event_ok (ev : event) : bool :=
  match ev with
  | PriceUpdate data => coin_keys (read_field data latest_data)
  | LatestResponse data => coin_keys data
  | _ => true
  end.

(** Every coin the page can select is a coin id: the selected one and the
    ones its rows select on a click. *)
Definition selectable (p : page) : Prop :=
  coin_id (selectedCoin p) = true
  /\ Forall (fun row => coin_id (tr_click row) = true) (priceTable p).

End Reach.

(** ** Sample payloads *)

Module Sample.

Import JS.

Definition high_alert : value :=
  VObj [("type", VStr "high"); ("threshold", VNum 50000)].

Definition low_alert : value :=
  VObj [("type", VStr "low"); ("threshold", VNum 40000)].

Definition bitcoin_snapshot : value :=
  VObj [ ("usd", VNum 45000.5); ("usd_24h_change", VNum (-3.456));
         ("rsi", VNum 55.123); ("ma_7", VNum 44000);
         ("alerts", VArr [high_alert; low_alert]) ].

Definition ethereum_snapshot : value :=
  VObj [ ("usd", VNum 2500); ("usd_24h_change", VNum 2) ].

Definition latest_entries : list (string * value) :=
  [ ("bitcoin", bitcoin_snapshot); ("ethereum", ethereum_snapshot) ].

Definition history_entries : list (string * value) :=
  [ ("bitcoin",
     VArr [ VObj [("timestamp", VNum 1700000000); ("price", VNum 45000)];
            VObj [("timestamp", VNum 1700000060); ("price", VNum 45000.5)] ]);
    ("ethereum", VArr []) ].

Definition push : value :=
  VObj [ ("latest_data", VObj latest_entries);
         ("price_history", VObj history_entries) ].

End Sample.

(** ** What a session offers and carries *)

Module Session.

Import Text JS Page Main Payload.

(** The keys of a payload map, in order. *)
Definition keys (data : value) : list string :=
  match Object_entries data with
  | Ok entries => map fst entries
  | Throw _ => []
  end.

(** The coins an event puts into table rows: the keys of the latest data it
    carries. *)
Definition offered (ev : event) : list string :=
  match ev with
  | PriceUpdate data =>
      match Get data latest_data with
      | Ok latest => keys latest
      | Throw _ => []
      end
  | LatestResponse data => keys data
  | _ => []
  end.

(** How many times the socket connected. *)
Fixpoint connects (evs : list event) : nat :=
  match evs with
  | [] => O
  | Connected :: rest => S (connects rest)
  | _ :: rest => connects rest
  end.

(** The alerts a list of entries carries, each with its coin, in the order
    [updateAlerts] visits them: entry by entry, and within an entry in the
    order of its [alerts] array. *)
Definition carried_by (entry : string * value) : list (string * value) :=
  match Get (snd entry) alerts with
  | Ok (VArr elems) => map (pair (fst entry)) elems
  | _ => []
  end.

Definition carried (entries : list (string * value)) : list (string * value) :=
  flat_map carried_by entries.

(** [row] is the row the table loop builds for [entry]. *)
Definition renders (entry : string * value) (row : tr) : Prop :=
  row_innerHTML (fst entry) (snd entry) = Ok (tr_innerHTML row)
  /\ tr_click row = fst entry.

(** [row] shows the snapshot [info] with the script's defaults: it holds
    six cells, the name and five texts, where a missing or otherwise falsy
    [rsi] reads [0.00], a missing or otherwise falsy moving average
    [$0.00], a missing [usd] [$NaN] and a missing [usd_24h_change] [NaN%]
    in the negative-change class. *)
Definition shows_defaults (info : value) (row : tr) : Prop :=
  exists name price_text change_text rsi_text ma_7_text ma_30_text,
    tr_innerHTML row
    = lf ++ spaces 12 ++ "<td>" ++ name ++ "</td>"
      ++ lf ++ spaces 12 ++ "<td>" ++ price_text ++ "</td>"
      ++ lf ++ spaces 12 ++ "<td>" ++ change_text ++ "</td>"
      ++ lf ++ spaces 12 ++ "<td>" ++ rsi_text ++ "</td>"
      ++ lf ++ spaces 12 ++ "<td>" ++ ma_7_text ++ "</td>"
      ++ lf ++ spaces 12 ++ "<td>" ++ ma_30_text ++ "</td>"
      ++ lf ++ spaces 8
    /\ (ToBoolean (read_field info rsi) = false -> rsi_text = "0.00")
    /\ (ToBoolean (read_field info ma_7) = false -> ma_7_text = "$0.00")
    /\ (ToBoolean (read_field info ma_30) = false -> ma_30_text = "$0.00")
    /\ (read_field info usd = VUndefined -> price_text = "$NaN")
    /\ (read_field info usd_24h_change = VUndefined ->
        change_text
        = "<span class=" ++ dquote ++ "negative-change" ++ dquote
          ++ ">NaN%</span>").

(** [entry] is the alert-list entry built for the alert [item] of a coin. *)
Definition shows (item : string * value) (entry : div) : Prop :=
  alertDiv (fst item) (snd item) = Ok entry.

(** [name] is the ASCII text [text] in upper case: as long as [text], and
    character by character a lower-case letter (codes 97 to 122) replaced
    by the letter 32 codes below it, any other character kept. *)
Definition upper_cased (text name : string) : Prop :=
  String.length name = String.length text
  /\ forall i c,
       String.get i text = Some c ->
       String.get i name
       = Some (let n := nat_of_ascii c in
               ascii_of_nat
                 (if ((97 <=? n) && (n <=? 122))%nat then n - 32 else n)).

(** [date] is the x value the chart gives the point [d]. *)
Definition dated (d : value) (date : Date) : Prop := point_date d = Ok date.

(** A coin the page can select satisfies [P]: the selected one and the ones
    its rows select on a click. *)
Definition selects_only (P : string -> Prop) (p : page) : Prop :=
  P (selectedCoin p) /\ Forall (fun row => P (tr_click row)) (priceTable p).

(** A plot as the script draws it: a single trace built by [chart_trace],
    with as many x values as y values, over the fixed layout. *)
Definition well_drawn (shown : option plot) : Prop :=
  match shown with
  | None => True
  | Some drawn =>
      exists coin timestamps prices,
        drawn = {| plot_data := [chart_trace coin timestamps prices];
                   plot_layout := chart_layout |}
        /\ List.length timestamps = List.length prices
  end.

End Session.

(** * Properties *)

Import Text JS Page Main Payload Effect Reach Session.

(** ** The host model on concrete inputs *)

Example parse_numeric_examples :
  map parse_numeric
    [" 12.5e3 "; ".5"; "5."; "."; "0x1F"; "-0x1F"; "-Infinity"; "  "; "1e";
     "1_000"; "-0"; "12 3"]
  = [LitDecimal false 125 2; LitDecimal false 5 (-1); LitDecimal false 5 0;
     LitInvalid; LitInteger 31; LitInvalid; LitInfinity true; LitEmpty;
     LitInvalid; LitInvalid; LitDecimal true 0 0; LitInvalid].
Proof. vm_compute. reflexivity. Qed.

Example StringToNumber_examples :
  map StringToNumber
    ["0.1"; "3.456"; "1e400"; "-1e-400"; "9007199254740993"; "abc"; ""]
  = [0.1; 3.456; infinity; (-0); 9007199254740992; nan; 0]%float.
Proof. vm_compute. reflexivity. Qed.

Example Number_toString_examples :
  map Number_toString
    [0.1; 1e21; 123456789012345680000; 1.5e-7; 5e-324; 0.000001; (-3.456);
     0.1 + 0.2; 1.7976931348623157e308; nan; (-0)]%float
  = ["0.1"; "1e+21"; "123456789012345680000"; "1.5e-7"; "5e-324";
     "0.000001"; "-3.456"; "0.30000000000000004"; "1.7976931348623157e+308";
     "NaN"; "0"].
Proof. vm_compute. reflexivity. Qed.

Example ToNumber_examples :
  map ToNumber
    [VUndefined; VNull; VBool true; VStr " 12 "; VArr []; VArr [VNum 5];
     VArr [VNum 1; VNum 2]; VObj []; VObj [("toString", VNull)]]
  = [Ok nan; Ok 0; Ok 1; Ok 12; Ok 0; Ok 5; Ok nan; Ok nan;
     Throw TypeError]%float.
Proof. vm_compute. reflexivity. Qed.

Example formatNumber_examples :
  map formatNumber
    [VNum 1234567.891; VNum 0.125; VNum 1.005; VNum (-0.001); VNum 1e21;
     VNum nan; VStr "1234.5"; VStr "n/a"; VUndefined; VNull;
     VObj [("toString", VNull)]]
  = [Ok "1,234,567.89"; Ok "0.13"; Ok "1.01"; Ok "-0.00";
     Ok "1,000,000,000,000,000,000,000.00"; Ok "NaN"; Ok "1,234.50";
     Ok "NaN"; Ok "NaN"; Ok "0.00"; Throw TypeError].
Proof. vm_compute. reflexivity. Qed.

(** White space around a numeral is dropped, also the white space outside
    ASCII: U+00A0, U+FEFF, U+2028. *)
Example white_space_examples :
  let nbsp := String (ascii_of_nat 194) (String (ascii_of_nat 160) EmptyString) in
  let bom :=
    String (ascii_of_nat 239)
      (String (ascii_of_nat 187) (String (ascii_of_nat 191) EmptyString)) in
  let line_separator :=
    String (ascii_of_nat 226)
      (String (ascii_of_nat 128) (String (ascii_of_nat 168) EmptyString)) in
  map formatNumber
    [VStr (nbsp ++ "12"); VStr (bom ++ "12" ++ line_separator);
     VStr (" 12" ++ nbsp ++ lf); VStr ("1" ++ nbsp ++ "2"); VStr nbsp]
  = [Ok "12.00"; Ok "12.00"; Ok "12.00"; Ok "NaN"; Ok "0.00"].
Proof. vm_compute. reflexivity. Qed.

Example GetKeyed_examples :
  map (GetKeyed (VObj [("bitcoin", VArr [])]))
    ["bitcoin"; "ethereum"; "constructor"; "__proto__"]
  = [Ok (Data (VArr [])); Ok (Data VUndefined); Ok BuiltinFunction;
     Ok (BuiltinPrototype false)].
Proof. vm_compute. reflexivity. Qed.

Example new_Date_examples :
  map (fun ms => time_value (new_Date ms))
    [1700000000123.75; (-1.5); 8.64e15; 8.64e15 + 2; nan]%float
  = [1700000000123; (-1); 8.64e15; nan; nan]%float.
Proof. vm_compute. reflexivity. Qed.

(** A session: the socket connects, a push arrives, the user clicks the
    second row. *)
Example session :
  let p := run loaded [Connected; PriceUpdate Sample.push; RowClick 1] in
  selectedCoin p = "ethereum"
  /\ map tr_click (priceTable p) = ["bitcoin"; "ethereum"]
  /\ map className (alertsList p) = ["alert alert-high"; "alert alert-low"]
  /\ option_map (fun drawn => map trace_name (plot_data drawn)) (priceChart p)
     = Some ["ETHEREUM"]
  /\ console p = ["Connected to server"]
  /\ requests p = ["/api/latest"; "/api/history"].
Proof. vm_compute. repeat split. Qed.

(** ** The page record and the script monad *)

Lemma set_priceTable_same (p : page) : set_priceTable (priceTable p) p = p.
Proof. destruct p; reflexivity. Qed.

Lemma set_alertsList_same (p : page) : set_alertsList (alertsList p) p = p.
Proof. destruct p; reflexivity. Qed.

Section Regions.

(** A region of the page that holds a list of children, with its reader
    and writer. *)
Context {B : Type} (get : page -> list B) (set : list B -> page -> page).
Hypothesis get_set : forall l p, get (set l p) = l.
Hypothesis set_set : forall l l' p, set l (set l' p) = set l p.
Hypothesis set_get : forall p, set (get p) p = p.

Lemma forEach_gather {A : Type} (body : A -> M unit) (f : A -> list B * result unit) :
  appends get set body f ->
  forall xs p,
    forEach xs body p
    = (snd (gather f xs), set (get p ++ fst (gather f xs))%list p).
Proof.
  intros Hbody xs.
  induction xs as [|a rest IH]; intros p; simpl.
  - unfold ret. now rewrite app_nil_r, set_get.
  - unfold bind. rewrite Hbody.
    destruct (f a) as [out [u|e]]; simpl.
    + rewrite IH, get_set, set_set.
      destruct (gather f rest) as [more r]; simpl.
      now rewrite app_assoc.
    + reflexivity.
Qed.

End Regions.

(** ** Each render function against its summary *)

Lemma row_body_appends :
  appends priceTable set_priceTable
    (fun '(coin, info) =>
       (markup <- lift (row_innerHTML coin info) ;;
        appendChild_priceTable {| tr_innerHTML := markup; tr_click := coin |})%js)
    (fun entry => one (row_of entry)).
Proof.
  intros [coin info] p. unfold row_of, bind, lift; simpl.
  destruct (row_innerHTML coin info); simpl.
  - reflexivity.
  - now rewrite app_nil_r, set_priceTable_same.
Qed.

Lemma updatePriceTable_effect (data : value) (p : page) :
  updatePriceTable data p
  = (snd (table_effect data), set_priceTable (fst (table_effect data)) p).
Proof.
  unfold updatePriceTable, table_effect, bind, write, lift.
  destruct (Object_entries data) as [entries|e]; [|reflexivity].
  rewrite (forEach_gather priceTable set_priceTable) with (f := fun entry => one (row_of entry)).
  - reflexivity.
  - reflexivity.
  - reflexivity.
  - apply set_priceTable_same.
  - apply row_body_appends.
Qed.

Lemma alert_body_appends (coin : string) :
  appends alertsList set_alertsList
    (fun alert =>
       (entry <- lift (alertDiv coin alert) ;; appendChild_alertsList entry)%js)
    (fun alert => one (alertDiv coin alert)).
Proof.
  intros alert p. unfold bind, lift.
  destruct (alertDiv coin alert); simpl.
  - reflexivity.
  - now rewrite app_nil_r, set_alertsList_same.
Qed.

Lemma alerts_body_appends :
  appends alertsList set_alertsList
    (fun '(coin, info) =>
       (guard <- lift (Get info alerts) ;;
        if ToBoolean guard then
          list <- lift (Get info alerts) ;;
          elems <- lift (forEach_receiver list) ;;
          forEach elems (fun alert =>
            entry <- lift (alertDiv coin alert) ;;
            appendChild_alertsList entry)
        else ret tt)%js)
    alerts_of.
Proof.
  intros [coin info] p. unfold alerts_of, bind, lift; simpl.
  destruct (Get info alerts) as [list|e]; simpl.
  - destruct (ToBoolean list).
    + destruct (forEach_receiver list) as [elems|e]; simpl.
      * apply (forEach_gather alertsList set_alertsList); try reflexivity.
        -- apply set_alertsList_same.
        -- apply alert_body_appends.
      * now rewrite app_nil_r, set_alertsList_same.
    + unfold ret; simpl. now rewrite app_nil_r, set_alertsList_same.
  - now rewrite app_nil_r, set_alertsList_same.
Qed.

Lemma updateAlerts_effect (data : value) (p : page) :
  updateAlerts data p
  = (snd (alerts_effect data), set_alertsList (fst (alerts_effect data)) p).
Proof.
  unfold updateAlerts, alerts_effect, bind, write, lift.
  destruct (Object_entries data) as [entries|e]; [|reflexivity].
  rewrite (forEach_gather alertsList set_alertsList) with (f := alerts_of).
  - reflexivity.
  - reflexivity.
  - reflexivity.
  - apply set_alertsList_same.
  - apply alerts_body_appends.
Qed.

Lemma updatePriceChart_effect (coin : string) (history : value) (p : page) :
  updatePriceChart coin history p
  = match chart_effect coin history with
    | Ok (Some drawn) => (Ok tt, set_priceChart (Some drawn) p)
    | Ok None => (Ok tt, p)
    | Throw e => (Throw e, p)
    end.
Proof.
  unfold updatePriceChart, chart_effect.
  destruct (ToBoolean history); simpl; [|reflexivity].
  unfold bind, lift.
  destruct (GetKeyed history coin) as [entry|e]; simpl; [|reflexivity].
  destruct (truthy entry); simpl; [|reflexivity].
  destruct (map_receiver entry) as [points|e]; simpl; [|reflexivity].
  destruct (mapR point_date points) as [ts|e]; simpl; [|reflexivity].
  destruct (mapR point_price points) as [ps|e]; simpl; reflexivity.
Qed.

(** ** Reading fields and coercing values *)

(** None of the fixed field names is inherited from a built-in prototype,
    which is why [Get] can stop at own properties. *)
Lemma field_not_inherited (f : field) :
  mem (field_name f)
    (object_prototype_members ++ array_prototype_members
     ++ string_prototype_members ++ number_prototype_members
     ++ ["length"])%list = false.
Proof. destruct f; vm_compute; reflexivity. Qed.

Lemma Get_read_field (o : value) (f : field) :
  nullish o = false -> Get o f = Ok (read_field o f).
Proof.
  unfold read_field. destruct o; simpl; intros H; try discriminate; reflexivity.
Qed.

Lemma primitive_printable (v : value) : primitive v = true -> printable v = true.
Proof. destruct v; simpl; intros H; try discriminate; reflexivity. Qed.

Lemma falsy_printable (v : value) : ToBoolean v = false -> printable v = true.
Proof. destruct v; simpl; intros H; try discriminate; reflexivity. Qed.

Lemma printable_ToNumber (v : value) :
  printable v = true -> exists n, ToNumber v = Ok n.
Proof.
  unfold printable.
  destruct v; try (intros _; eexists; reflexivity);
    unfold ToNumber; destruct (ToString _) as [s|e]; intros H;
    try discriminate; eexists; reflexivity.
Qed.

Lemma printable_ToIntlMathematicalValue (v : value) :
  printable v = true -> exists x, ToIntlMathematicalValue v = Ok x.
Proof.
  unfold printable.
  destruct v; try (intros _; eexists; reflexivity);
    unfold ToIntlMathematicalValue; destruct (ToString _) as [s|e]; intros H;
    try discriminate; eexists; reflexivity.
Qed.

Lemma printable_formatNumber (v : value) :
  printable v = true -> exists text, formatNumber v = Ok text.
Proof.
  intros H. destruct (printable_ToIntlMathematicalValue v H) as [x Hx].
  unfold formatNumber, formatNumber_decimals, NumberFormat_format.
  rewrite Hx. eexists; reflexivity.
Qed.

Lemma printable_formatPrice (v : value) :
  printable v = true -> exists text, formatPrice v = Ok text.
Proof.
  intros H. destruct (printable_formatNumber v H) as [t Ht].
  unfold formatPrice. rewrite Ht. eexists; reflexivity.
Qed.

Lemma printable_formatChange (v : value) :
  printable v = true -> exists text, formatChange v = Ok text.
Proof.
  intros H. destruct (printable_formatNumber v H) as [t Ht].
  destruct (printable_ToNumber v H) as [n Hn].
  unfold formatChange, ge_zero. rewrite Hn, Ht. eexists; reflexivity.
Qed.

Lemma printable_or_else (v : value) :
  printable v = true -> printable (or_else v (VNum 0)) = true.
Proof. unfold or_else. destruct (ToBoolean v); auto. Qed.

Lemma snapshot_ok_row (coin : string) (info : value) :
  snapshot_ok info = true ->
  exists price_text change_text rsi_text ma_7_text ma_30_text,
    row_innerHTML coin info
    = Ok (row_markup (capitalized coin) price_text change_text rsi_text
            ma_7_text ma_30_text).
Proof.
  unfold snapshot_ok. rewrite !andb_true_iff, negb_true_iff.
  intros [[[[[[Hn Husd] Hchange] Hrsi] Hma7] Hma30] _].
  unfold row_innerHTML, price_cell, change_cell, rsi_cell, ma_7_cell, ma_30_cell.
  rewrite !(Get_read_field info) by assumption. simpl.
  destruct (printable_formatPrice _ Husd) as [t1 ->].
  destruct (printable_formatChange _ Hchange) as [t2 ->].
  destruct (printable_formatNumber _ (printable_or_else _ Hrsi)) as [t3 ->].
  destruct (printable_formatPrice _ (printable_or_else _ Hma7)) as [t4 ->].
  destruct (printable_formatPrice _ (printable_or_else _ Hma30)) as [t5 ->].
  simpl. now exists t1, t2, t3, t4, t5.
Qed.

(** ** Loops that do not throw *)

Lemma gather_one_ok {A B : Type} (g : A -> result B) (P : A -> B -> Prop)
  (xs : list A) :
  Forall (fun a => exists b, g a = Ok b /\ P a b) xs ->
  exists bs, gather (fun a => one (g a)) xs = (bs, Ok tt) /\ Forall2 P xs bs.
Proof.
  induction 1 as [|a rest [b [Hg HP]] _ [bs [IH HF]]]; simpl.
  - exists []. split; [reflexivity | constructor].
  - rewrite Hg; simpl. rewrite IH. exists (b :: bs).
    split; [reflexivity | now constructor].
Qed.

Lemma gather_snd_ok {A B : Type} (f : A -> list B * result unit) (xs : list A) :
  Forall (fun a => snd (f a) = Ok tt) xs -> snd (gather f xs) = Ok tt.
Proof.
  induction 1 as [|a rest Ha _ IH]; simpl; [reflexivity|].
  destruct (f a) as [out [u|e]]; simpl in Ha; [|discriminate].
  destruct (gather f rest) as [more r]. exact IH.
Qed.

Lemma gather_nothing {A B : Type} (f : A -> list B * result unit) (xs : list A) :
  Forall (fun a => f a = ([], Ok tt)) xs -> gather f xs = ([], Ok tt).
Proof.
  induction 1 as [|a rest Ha _ IH]; simpl; [reflexivity|].
  now rewrite Ha, IH.
Qed.

Lemma gather_app {A B : Type} (f : A -> list B * result unit) (xs ys : list A) :
  gather f (xs ++ ys)%list
  = match gather f xs with
    | (out, Ok _) => let '(more, r) := gather f ys in ((out ++ more)%list, r)
    | (out, Throw e) => (out, Throw e)
    end.
Proof.
  induction xs as [|a rest IH]; simpl.
  - now destruct (gather f ys).
  - destruct (f a) as [out [u|e]]; [|reflexivity].
    rewrite IH. destruct (gather f rest) as [more [u'|e]]; [|reflexivity].
    destruct (gather f ys) as [more' r]. now rewrite app_assoc.
Qed.

Lemma alert_ok_alertDiv (coin : string) (alert : value) :
  alert_ok alert = true -> exists entry, alertDiv coin alert = Ok entry.
Proof.
  unfold alert_ok. rewrite andb_true_iff, negb_true_iff. intros [Hn Hp].
  unfold alertDiv. rewrite !(Get_read_field alert) by assumption. simpl.
  destruct (printable_formatPrice _ Hp) as [t ->]. simpl.
  eexists; reflexivity.
Qed.

Lemma snapshot_ok_alerts (coin : string) (info : value) :
  snapshot_ok info = true -> snd (alerts_of (coin, info)) = Ok tt.
Proof.
  unfold snapshot_ok. rewrite !andb_true_iff, negb_true_iff.
  intros [[[[[[Hn _] _] _] _] _] Ha].
  unfold alerts_of; simpl. rewrite (Get_read_field info) by assumption.
  unfold alerts_ok in Ha.
  destruct (ToBoolean (read_field info alerts)); [|reflexivity].
  destruct (read_field info alerts); try discriminate. simpl.
  apply gather_snd_ok. apply Forall_forall. intros a Hin.
  rewrite forallb_forall in Ha.
  destruct (alert_ok_alertDiv coin a (Ha a Hin)) as [entry ->]. reflexivity.
Qed.

Lemma LatestSnapshotMap_entries (data : value) :
  LatestSnapshotMap data = true ->
  exists entries,
    data = VObj entries
    /\ Forall (fun entry => snapshot_ok (snd entry) = true) entries.
Proof.
  destruct data; simpl; try discriminate. intros H.
  exists props. split; [reflexivity|].
  apply Forall_forall. now apply forallb_forall.
Qed.

(** [coin.charAt(0).toUpperCase() + coin.slice(1)] puts the first character
    in upper case and leaves the others as they are. *)
Lemma capitalized_first (coin : string) :
  capitalized coin
  = match coin with
    | EmptyString => EmptyString
    | String c rest => String (upper_char c) rest
    end.
Proof. destruct coin; reflexivity. Qed.

(** ** Number formatting *)

Lemma decimal_all_digits (n : N) : all_digits (decimal n) = true.
Proof.
  unfold decimal, NilZero.string_of_uint.
  assert (H : forall d, all_digits (NilEmpty.string_of_uint d) = true)
    by (induction d; simpl; auto).
  destruct (N.to_uint n); try apply (H (_ _)); reflexivity.
Qed.

Lemma two_fraction_digits (m : Z) :
  (0 <= m < 100)%Z ->
  let text := strip_trailing_zeros 2 (pad_zeros 2 m) in
  String.length text = 2%nat /\ all_digits text = true.
Proof.
  intros Hm.
  assert (Hall : forallb
            (fun k =>
               let text := strip_trailing_zeros 2 (pad_zeros 2 (Z.of_nat k)) in
               Nat.eqb (String.length text) 2 && all_digits text)
            (seq 0 100) = true) by (vm_compute; reflexivity).
  rewrite forallb_forall in Hall.
  specialize (Hall (Z.to_nat m)).
  rewrite Z2Nat.id in Hall by lia.
  assert (Hin : In (Z.to_nat m) (seq 0 100)) by (apply in_seq; lia).
  apply Hall in Hin. cbv zeta in Hin.
  apply andb_true_iff in Hin as [Hlen Hdig].
  apply Nat.eqb_eq in Hlen. now split.
Qed.

Lemma format_finite_shape (negative : bool) (num den : Z) :
  (0 <= num)%Z -> (0 < den)%Z ->
  exists whole fraction,
    format_finite two_decimals negative num den
    = (if negative then "-" else "") ++ group_thousands whole ++ "." ++ fraction
    /\ String.length fraction = 2%nat
    /\ all_digits fraction = true
    /\ all_digits whole = true.
Proof.
  intros Hnum Hden.
  unfold format_finite, two_decimals; simpl maximumFractionDigits;
    simpl minimumFractionDigits.
  change (pow10 (Z.of_nat 2)) with 100%Z.
  set (n := ((2 * num * 100 + den) / (2 * den))%Z).
  destruct (two_fraction_digits (n mod 100)) as [Hlen Hdig].
  { apply Z.mod_pos_bound. lia. }
  cbv zeta in Hlen, Hdig.
  set (fraction := strip_trailing_zeros 2 (pad_zeros 2 (n mod 100))) in *.
  exists (decimal (Z.to_N (n / 100))), fraction.
  split; [|split; [exact Hlen | split; [exact Hdig|]]].
  - destruct fraction; [discriminate|]. reflexivity.
  - apply decimal_all_digits.
Qed.

Lemma formatNumber_number (n : float) : exists text, formatNumber (VNum n) = Ok text.
Proof. apply printable_formatNumber. reflexivity. Qed.

Lemma pow10_pos (e : Z) : (0 <= e)%Z -> (0 < pow10 e)%Z.
Proof. intros He. apply Z.pow_pos_nonneg; lia. Qed.

Lemma exact_decimal_den_pos (negative : bool) (m : N) (e num den : Z) :
  exact_decimal negative m e = MFinite num den -> (0 < den)%Z.
Proof.
  unfold exact_decimal. intros Heq.
  assert (Hcase :
    (if (0 <=? e)%Z then MFinite (signed negative (Z.of_N m * pow10 e)) 1
     else MFinite (signed negative (Z.of_N m)) (pow10 (- e)))
    = MFinite num den -> (0 < den)%Z).
  { destruct (Z.leb_spec 0 e) as [Hle|Hlt]; intros Hm; inversion Hm; subst.
    - lia.
    - apply pow10_pos. lia. }
  destruct (round_decimal false m e); auto.
  - destruct negative; [discriminate|]. inversion Heq; lia.
  - discriminate.
Qed.

Lemma StringIntlMV_den_pos (s : string) (num den : Z) :
  StringIntlMV s = MFinite num den -> (0 < den)%Z.
Proof.
  unfold StringIntlMV.
  destruct (parse_numeric s) as [| |negative|negative m e|n]; try discriminate.
  - intros Hm; inversion Hm; lia.
  - apply exact_decimal_den_pos.
  - apply exact_decimal_den_pos.
Qed.

Lemma ToIntlMathematicalValue_den_pos (v : value) (num den : Z) :
  ToIntlMathematicalValue v = Ok (MFinite num den) -> (0 < den)%Z.
Proof.
  assert (Hnum : forall x,
    Ok (match Prim2SF x with
        | S754_zero true => MNegativeZero
        | _ => StringIntlMV (Number_toString x)
        end) = Ok (MFinite num den) -> (0 < den)%Z).
  { intros x Hx. inversion Hx as [Hm]. clear Hx.
    destruct (Prim2SF x) as [[|]| | |]; try discriminate;
      now apply StringIntlMV_den_pos in Hm. }
  assert (Hstr : forall w,
    (s <- ToString w ;; Ok (StringIntlMV s))%res = Ok (MFinite num den) ->
    (0 < den)%Z).
  { intros w. destruct (ToString w) as [s|e]; simpl; [|discriminate].
    intros Hx. inversion Hx as [Hm]. now apply StringIntlMV_den_pos in Hm. }
  destruct v; try apply Hnum; try apply Hstr.
  simpl. intros Hx. inversion Hx as [Hm]. now apply StringIntlMV_den_pos in Hm.
Qed.

(** ** The formatters *)

(** C6: [formatChange] renders a percentage with an explicit [+] for inputs
    that are [>= 0] and none otherwise, and wraps it in a span whose class
    is [positive-change] for the former and [negative-change] for the
    latter; [formatChange(-3.456)] is the negative-change span around
    [-3.46%] and [formatChange(2)] the positive-change span around
    [+2.00%]. *)
Theorem formatChange_sign_and_class :
  formatChange (VNum (-3.456))
  = Ok ("<span class=" ++ dquote ++ "negative-change" ++ dquote ++ ">-3.46%</span>")
  /\ formatChange (VNum 2)
     = Ok ("<span class=" ++ dquote ++ "positive-change" ++ dquote ++ ">+2.00%</span>")
  /\ forall change : float,
       exists number,
         formatNumber (VNum change) = Ok number
         /\ formatChange (VNum change)
            = Ok (if PrimFloat.leb 0 change
                  then "<span class=" ++ dquote ++ "positive-change" ++ dquote
                       ++ ">+" ++ number ++ "%</span>"
                  else "<span class=" ++ dquote ++ "negative-change" ++ dquote
                       ++ ">" ++ number ++ "%</span>").
Proof.
  split; [vm_compute; reflexivity|].
  split; [vm_compute; reflexivity|].
  intros change.
  destruct (formatNumber_number change) as [number Hnumber].
  exists number. split; [exact Hnumber|].
  unfold formatChange, ge_zero. cbn [ToNumber rbind].
  rewrite Hnumber. cbn [rbind]. unfold zero, change_span.
  destruct (PrimFloat.leb 0 change); reflexivity.
Qed.

(** C7: [formatPrice] renders a price as the currency symbol followed by
    the number with thousands grouping and exactly two fraction digits;
    [formatPrice(1234.5)] is [$1,234.50]. *)
Theorem formatPrice_currency_grouped_two_decimals :
  formatPrice (VNum 1234.5) = Ok "$1,234.50"
  /\ formatPrice (VNum 1234567.891) = Ok "$1,234,567.89"
  /\ forall (price : value) (num den : Z),
       ToIntlMathematicalValue price = Ok (MFinite num den) ->
       exists whole fraction,
         formatPrice price
         = Ok ("$" ++ (if (num <? 0)%Z then "-" else "")
               ++ group_thousands whole ++ "." ++ fraction)
         /\ all_digits whole = true
         /\ all_digits fraction = true
         /\ String.length fraction = 2%nat.
Proof.
  split; [vm_compute; reflexivity|].
  split; [vm_compute; reflexivity|].
  intros price num den Hprice.
  pose proof (ToIntlMathematicalValue_den_pos _ _ _ Hprice) as Hden.
  destruct (format_finite_shape (num <? 0)%Z (Z.abs num) den)
    as (whole & fraction & Hfmt & Hlen & Hfrac & Hwhole); [lia | lia |].
  exists whole, fraction.
  unfold formatPrice, formatNumber, formatNumber_decimals, NumberFormat_format.
  fold two_decimals. rewrite Hprice. simpl. rewrite Hfmt. auto.
Qed.

(** ** The price table *)

(** The model's case mapping of a character, by its code: a lower-case
    ASCII letter moves 32 codes down, any other character stays. *)
Lemma upper_char_code (c : ascii) :
  upper_char c
  = ascii_of_nat
      (if ((97 <=? nat_of_ascii c) && (nat_of_ascii c <=? 122))%nat
       then nat_of_ascii c - 32 else nat_of_ascii c).
Proof.
  unfold upper_char, is_lower.
  destruct ((97 <=? nat_of_ascii c) && (nat_of_ascii c <=? 122))%nat;
    [reflexivity|].
  symmetry. apply ascii_nat_embedding.
Qed.

(** C5: for every LatestSnapshotMap keyed by ASCII coin ids,
    [updatePriceTable] leaves exactly one row per entry of the map, in
    order; the row's click passes that entry's coin on, and its first cell
    shows the coin name with its first character in upper case (a letter
    [a] to [z] replaced by the letter 32 codes below it) and the other
    characters unchanged. *)
Theorem updatePriceTable_one_row_per_coin
  (entries : list (string * value)) (p : page) :
  LatestSnapshotMap (VObj entries) = true ->
  forallb (fun entry => ascii_text (fst entry)) entries = true ->
  exists rows,
    updatePriceTable (VObj entries) p = (Ok tt, set_priceTable rows p)
    /\ List.length rows = List.length entries
    /\ Forall2 row_for entries rows.
Proof.
  intros Hmap _.
  destruct (LatestSnapshotMap_entries _ Hmap) as [es [Heq Hall]].
  inversion Heq; subst es; clear Heq.
  destruct (gather_one_ok row_of row_for entries) as [rows [Hrows HF]].
  { eapply Forall_impl; [|exact Hall].
    intros [coin info] Hok; simpl in *.
    destruct (snapshot_ok_row coin info Hok) as (t1 & t2 & t3 & t4 & t5 & Hrow).
    unfold row_of, row_for; simpl. rewrite Hrow; simpl.
    eexists. split; [reflexivity|]. simpl. split; [reflexivity|].
    rewrite capitalized_first.
    destruct coin as [|c rest]; [eexists; reflexivity|].
    rewrite (upper_char_code c). eexists. reflexivity. }
  exists rows. rewrite updatePriceTable_effect.
  unfold table_effect; simpl. rewrite Hrows; simpl.
  split; [reflexivity|]. split; [|exact HF].
  symmetry. eapply Forall2_length; exact HF.
Qed.

Lemma updatePriceTable_one_row_per_coin_witness :
  LatestSnapshotMap (VObj Sample.latest_entries) = true
  /\ forallb (fun entry => ascii_text (fst entry)) Sample.latest_entries = true
  /\ exists first second,
       updatePriceTable (VObj Sample.latest_entries) loaded
       = (Ok tt, set_priceTable [first; second] loaded)
       /\ tr_click first = "bitcoin"
       /\ (exists cells,
             tr_innerHTML first
             = lf ++ spaces 12 ++ "<td>Bitcoin</td>" ++ cells)
       /\ tr_click second = "ethereum"
       /\ (exists cells,
             tr_innerHTML second
             = lf ++ spaces 12 ++ "<td>Ethereum</td>" ++ cells).
Proof.
  split; [vm_compute; reflexivity|].
  split; [vm_compute; reflexivity|].
  destruct (updatePriceTable_one_row_per_coin Sample.latest_entries loaded)
    as [rows [Hrun [_ Hrows]]]; [vm_compute; reflexivity ..|].
  inversion Hrows as [|e1 first es1 rest1 [Hc1 H1] Hrest1]; subst.
  inversion Hrest1 as [|e2 second es2 rest2 [Hc2 H2] Hrest2]; subst.
  inversion Hrest2; subst.
  exists first, second.
  split; [exact Hrun|].
  split; [exact Hc1|]. split; [exact H1|].
  split; [exact Hc2|]. exact H2.
Defined.

(** ** Rendering replaces a region *)

(** C8: rendering is idempotent and replaces the whole region: running
    [updatePriceTable] (likewise [updateAlerts]) a second time with the same
    data ends as the first run did and leaves the page as the first run
    left it, and what the region holds afterwards depends on the data alone,
    not on what the region held before. *)
Theorem render_idempotent_total_replacement (data : value) (p q : page) :
  updatePriceTable data (snd (updatePriceTable data p)) = updatePriceTable data p
  /\ updateAlerts data (snd (updateAlerts data p)) = updateAlerts data p
  /\ priceTable (snd (updatePriceTable data p))
     = priceTable (snd (updatePriceTable data q))
  /\ alertsList (snd (updateAlerts data p))
     = alertsList (snd (updateAlerts data q)).
Proof.
  rewrite !updatePriceTable_effect, !updateAlerts_effect. simpl.
  repeat split.
Qed.

(** ** Selecting a coin *)

Lemma chart_effect_entry (coin : string) (props : list (string * value))
  (points : list value) (timestamps : list Date) (prices : list value) :
  lookup coin props = Some (VArr points) ->
  mapR point_date points = Ok timestamps ->
  mapR point_price points = Ok prices ->
  chart_effect coin (VObj props)
  = Ok (Some {| plot_data := [chart_trace coin timestamps prices];
                plot_layout := chart_layout |}).
Proof.
  intros Hentry Hts Hps. unfold chart_effect; simpl.
  rewrite Hentry; simpl. now rewrite Hts, Hps.
Qed.

(** C9: [selectCoin(coin)] sets [selectedCoin] to the coin and re-renders
    the chart from the history the page already holds (the plot of the
    coin's points when the history has them); it issues no request and
    leaves [priceHistory], the price table and the alert list as they
    were. *)
Theorem selectCoin_frame (coin : string) (p : page) :
  let after := snd (selectCoin coin p) in
  selectedCoin after = coin
  /\ priceChart after = priceChart (snd (updatePriceChart coin (priceHistory p) p))
  /\ (forall props points timestamps prices,
        priceHistory p = VObj props ->
        lookup coin props = Some (VArr points) ->
        mapR point_date points = Ok timestamps ->
        mapR point_price points = Ok prices ->
        priceChart after
        = Some {| plot_data := [chart_trace coin timestamps prices];
                  plot_layout := chart_layout |})
  /\ requests after = requests p
  /\ priceHistory after = priceHistory p
  /\ priceTable after = priceTable p
  /\ alertsList after = alertsList p
  /\ console after = console p.
Proof.
  cbv zeta. unfold selectCoin, bind, write, read.
  rewrite !updatePriceChart_effect. simpl.
  split; [|split; [|split]].
  - destruct (chart_effect coin (priceHistory p)) as [[drawn|]|e]; reflexivity.
  - destruct (chart_effect coin (priceHistory p)) as [[drawn|]|e]; reflexivity.
  - intros props points timestamps prices Hh Hentry Hts Hps.
    rewrite Hh, (chart_effect_entry _ _ _ _ _ Hentry Hts Hps). reflexivity.
  - destruct (chart_effect coin (priceHistory p)) as [[drawn|]|e];
      simpl; repeat split.
Qed.

(** ** Alerts *)

(** The model's [toUpperCase], character by character. *)
Lemma toUpperCase_upper_cased (text : string) : upper_cased text (toUpperCase text).
Proof.
  split.
  - induction text as [|c rest IH]; simpl; [reflexivity | now rewrite IH].
  - induction text as [|c rest IH]; intros i d Hget; [discriminate|].
    destruct i as [|i]; simpl in *.
    + injection Hget as <-. now rewrite upper_char_code.
    + now apply IH.
Qed.

Lemma upper_cased_toUpperCase (text name : string) :
  upper_cased text name -> name = toUpperCase text.
Proof.
  revert name. induction text as [|c rest IH]; intros name [Hlen Hget].
  - destruct name; [reflexivity | discriminate].
  - destruct name as [|d name]; [discriminate|].
    simpl. f_equal.
    + specialize (Hget 0 c eq_refl). simpl in Hget.
      injection Hget as ->. now rewrite upper_char_code.
    + apply IH. split; [now injection Hlen|].
      intros i e He. exact (Hget (S i) e He).
Qed.



(** ** The chart *)

Lemma coin_id_not_inherited (coin : string) :
  coin_id coin = true -> inherited coin [] false = Data VUndefined.
Proof.
  unfold coin_id, inherited. rewrite negb_true_iff. intros Hmem.
  destruct (String.eqb_spec coin "__proto__") as [->|_].
  - vm_compute in Hmem. discriminate.
  - change (mem coin []) with false. now rewrite Hmem.
Qed.

Lemma no_history_chart_effect (coin : string) (history : value) :
  no_history coin history = true ->
  match chart_effect coin history with
  | Ok (Some _) => False
  | Ok None => True
  | Throw _ => coin_id coin = false
  end.
Proof.
  unfold no_history, chart_effect. intros Hno.
  destruct history as [| |b|n|s|elems|entries]; simpl in *;
    try discriminate;
    try (rewrite negb_true_iff in Hno; try rewrite Hno; simpl; exact I);
    try exact I.
  destruct (lookup coin entries) as [entry|]; simpl.
  - rewrite Hno. exact I.
  - destruct (coin_id coin) eqn:Hid.
    + now rewrite (coin_id_not_inherited coin Hid).
    + unfold inherited.
      destruct (String.eqb coin "__proto__"); [reflexivity|].
      change (mem coin []) with false.
      destruct (mem coin object_prototype_members); [reflexivity | exact I].
Qed.

(** C4, as the code has it: [updatePriceChart(coin, history)] leaves the
    page, and so the chart, as it was whenever [history] is missing or
    holds no entry (or a falsy one) under [coin], in particular when it is
    the empty map; for a coin id it then returns normally.  An entry that
    is present but holds an empty sequence is not such a case: the chart
    is redrawn with an empty series. *)
Theorem updatePriceChart_noop_without_entry
  (coin : string) (history : value) (p : page) :
  no_history coin history = true ->
  snd (updatePriceChart coin history p) = p
  /\ snd (updatePriceChart coin (VObj []) p) = p
  /\ (coin_id coin = true ->
      updatePriceChart coin history p = (Ok tt, p)
      /\ updatePriceChart coin (VObj []) p = (Ok tt, p))
  /\ (forall entries,
        lookup coin entries = Some (VArr []) ->
        updatePriceChart coin (VObj entries) p
        = (Ok tt,
           set_priceChart
             (Some {| plot_data := [chart_trace coin [] []];
                      plot_layout := chart_layout |}) p)).
Proof.
  intros Hno.
  pose proof (no_history_chart_effect coin history Hno) as Hh.
  pose proof (no_history_chart_effect coin (VObj []) eq_refl) as He.
  rewrite !updatePriceChart_effect.
  split; [|split; [|split]].
  - destruct (chart_effect coin history) as [[drawn|]|e];
      [contradiction | reflexivity | reflexivity].
  - destruct (chart_effect coin (VObj [])) as [[drawn|]|e];
      [contradiction | reflexivity | reflexivity].
  - intros Hid.
    destruct (chart_effect coin history) as [[drawn|]|e];
      [contradiction | | congruence].
    destruct (chart_effect coin (VObj [])) as [[drawn|]|e];
      [contradiction | | congruence].
    now split.
  - intros entries Hentry. rewrite updatePriceChart_effect.
    now rewrite (chart_effect_entry coin entries [] [] [] Hentry eq_refl eq_refl).
Qed.

Lemma updatePriceChart_noop_without_entry_witness :
  no_history "ethereum" (VObj [("bitcoin", VArr [])]) = true
  /\ snd (updatePriceChart "ethereum" (VObj [("bitcoin", VArr [])]) loaded) = loaded.
Proof.
  split; [reflexivity|].
  apply (updatePriceChart_noop_without_entry "ethereum"
           (VObj [("bitcoin", VArr [])]) loaded).
  reflexivity.
Defined.

(** C4, as stated, fails.  After a push the chart shows the two bitcoin
    points; the held history has an entry for ethereum with no points in
    it, yet [updatePriceChart] for ethereum replaces the chart by a plot
    with an empty series.  And for a key that objects inherit a member
    for, the call on the empty map does not return: it raises. *)
Lemma updatePriceChart_plots_empty_history :
  let shown := step loaded (PriceUpdate Sample.push) in
  history_entry "ethereum" (priceHistory shown) = Some (VArr [])
  /\ option_map (fun drawn => map trace_name (plot_data drawn)) (priceChart shown)
     = Some ["BITCOIN"]
  /\ priceChart (snd (updatePriceChart "ethereum" (priceHistory shown) shown))
     = Some {| plot_data := [chart_trace "ethereum" [] []];
               plot_layout := chart_layout |}
  /\ priceChart (snd (updatePriceChart "ethereum" (priceHistory shown) shown))
     <> priceChart shown
  /\ updatePriceChart "constructor" (VObj []) loaded = (Throw TypeError, loaded).
Proof.
  cbv zeta. repeat split. vm_compute. discriminate.
Qed.

(** ** The alert list *)

Lemma prefix_append (needle after : string) : prefix needle (needle ++ after) = true.
Proof.
  induction needle as [|c rest IH]; simpl.
  - now destruct after.
  - destruct (ascii_dec c c) as [_|Hne]; [exact IH | contradiction].
Qed.

Lemma contains_includes (needle s : string) :
  contains needle s -> includes needle s = true.
Proof.
  intros (before & after & ->).
  induction before as [|c rest IH].
  - change (EmptyString ++ needle ++ after) with (needle ++ after).
    destruct (needle ++ after) eqn:E; cbn [includes];
      rewrite <- E, prefix_append; reflexivity.
  - change (String c rest ++ needle ++ after)
      with (String c (rest ++ needle ++ after)).
    cbn [includes]. rewrite IH. now destruct (prefix needle _).
Qed.

Lemma read_field_Get (o : value) (f : field) (v : value) :
  read_field o f = v -> v <> VUndefined -> Get o f = Ok v.
Proof.
  intros Hread Hdef. rewrite <- Hread. apply Get_read_field.
  destruct o; try reflexivity; unfold read_field in Hread; simpl in Hread;
    congruence.
Qed.

Lemma no_alerts_nothing (entry : string * value) :
  nullish (snd entry) = false ->
  ToBoolean (read_field (snd entry) alerts) = false ->
  alerts_of entry = ([], Ok tt).
Proof.
  intros Hn Hfalsy. unfold alerts_of.
  rewrite (Get_read_field _ _ Hn). now rewrite Hfalsy.
Qed.

Lemma empty_alerts_nothing (entry : string * value) :
  read_field (snd entry) alerts = VArr [] ->
  alerts_of entry = ([], Ok tt).
Proof.
  intros Hempty. unfold alerts_of.
  rewrite (read_field_Get _ alerts _ Hempty) by discriminate.
  reflexivity.
Qed.

(** C2, as the code has it: when coin bitcoin carries two alerts, one whose
    [type] is high with threshold 50000 and then one whose [type] is low
    with threshold 40000, and every other coin carries none (its [alerts]
    is missing, otherwise falsy, or an empty array), [updateAlerts] leaves
    exactly two entries in the alert list, in that order: the first says
    [above $50,000.00], the second [below $40,000.00].  An alert is the
    record of a [type] and a [threshold]. *)
Theorem updateAlerts_high_then_low
  (before after : list (string * value)) (info high low : value) (p : page) :
  Forall (fun entry =>
            nullish (snd entry) = false
            /\ (ToBoolean (read_field (snd entry) alerts) = false
                \/ read_field (snd entry) alerts = VArr []))
         (before ++ after)%list ->
  read_field info alerts = VArr [high; low] ->
  read_field high type = VStr "high" ->
  read_field high threshold = VNum 50000 ->
  read_field low type = VStr "low" ->
  read_field low threshold = VNum 40000 ->
  exists first second,
    updateAlerts (VObj (before ++ ("bitcoin", info) :: after)%list) p
    = (Ok tt, set_alertsList [first; second] p)
    /\ className first = "alert alert-high"
    /\ contains "above $50,000.00" (innerHTML first)
    /\ className second = "alert alert-low"
    /\ contains "below $40,000.00" (innerHTML second).
Proof.
  intros Hothers Halerts Hhigh_type Hhigh_threshold Hlow_type Hlow_threshold.
  apply Forall_app in Hothers as [Hbefore Hafter].
  assert (Hnothing : forall l,
    Forall (fun entry =>
              nullish (snd entry) = false
              /\ (ToBoolean (read_field (snd entry) alerts) = false
                  \/ read_field (snd entry) alerts = VArr [])) l ->
    gather alerts_of l = ([], Ok tt)).
  { intros l Hl. apply gather_nothing.
    eapply Forall_impl; [|exact Hl].
    intros entry [Hn [Hfalsy|Hempty]];
      [now apply no_alerts_nothing | now apply empty_alerts_nothing]. }
  assert (Hhigh : alertDiv "bitcoin" high
    = Ok {| className := "alert alert-high";
            innerHTML := alert_markup "BITCOIN" "above" "$50,000.00" |}).
  { unfold alertDiv.
    rewrite (read_field_Get high type _ Hhigh_type) by discriminate.
    rewrite (read_field_Get high threshold _ Hhigh_threshold) by discriminate.
    vm_compute. reflexivity. }
  assert (Hlow : alertDiv "bitcoin" low
    = Ok {| className := "alert alert-low";
            innerHTML := alert_markup "BITCOIN" "below" "$40,000.00" |}).
  { unfold alertDiv.
    rewrite (read_field_Get low type _ Hlow_type) by discriminate.
    rewrite (read_field_Get low threshold _ Hlow_threshold) by discriminate.
    vm_compute. reflexivity. }
  exists {| className := "alert alert-high";
            innerHTML := alert_markup "BITCOIN" "above" "$50,000.00" |},
         {| className := "alert alert-low";
            innerHTML := alert_markup "BITCOIN" "below" "$40,000.00" |}.
  split.
  - assert (Hinfo : alerts_of ("bitcoin", info)
      = ([ {| className := "alert alert-high";
              innerHTML := alert_markup "BITCOIN" "above" "$50,000.00" |};
           {| className := "alert alert-low";
              innerHTML := alert_markup "BITCOIN" "below" "$40,000.00" |} ],
         Ok tt)).
    { unfold alerts_of. cbn [fst snd].
      rewrite (read_field_Get info alerts _ Halerts) by discriminate.
      cbn [ToBoolean forEach_receiver gather]. rewrite Hhigh, Hlow.
      reflexivity. }
    rewrite updateAlerts_effect. unfold alerts_effect.
    cbn [Object_entries]. rewrite gather_app, (Hnothing before Hbefore).
    cbn [gather]. rewrite (Hnothing after Hafter), Hinfo.
    reflexivity.
  - cbn [className innerHTML]. repeat split.
    + exists (lf ++ spaces 20 ++ "<strong>BITCOIN</strong> price is "),
             (lf ++ spaces 16). reflexivity.
    + exists (lf ++ spaces 20 ++ "<strong>BITCOIN</strong> price is "),
             (lf ++ spaces 16). reflexivity.
Qed.

(** C2, as stated, fails in two ways.  On an alert written as the record
    the claim gives, with its kind in a field called [kind], the script
    reads [alert.type], finds nothing, and renders both alerts as low ones.
    And with the kinds in [type], bitcoin carrying the two alerts does not
    make the list two entries long: an alert carried by another coin is
    listed as well, so the list has a third entry. *)
Lemma updateAlerts_reads_type_not_kind :
  let data :=
    VObj [("bitcoin",
           VObj [("usd", VNum 45000.5); ("usd_24h_change", VNum 2);
                 ("alerts",
                  VArr [VObj [("kind", VStr "high"); ("threshold", VNum 50000)];
                        VObj [("kind", VStr "low"); ("threshold", VNum 40000)]])])] in
  let shared :=
    VObj [("bitcoin", Sample.bitcoin_snapshot);
          ("ethereum",
           VObj [("usd", VNum 2500); ("usd_24h_change", VNum 2);
                 ("alerts",
                  VArr [VObj [("type", VStr "high"); ("threshold", VNum 3000)]])])] in
  (updateAlerts data loaded
   = (Ok tt,
      set_alertsList
        [ {| className := "alert alert-low";
             innerHTML := alert_markup "BITCOIN" "below" "$50,000.00" |};
          {| className := "alert alert-low";
             innerHTML := alert_markup "BITCOIN" "below" "$40,000.00" |} ]
        loaded)
   /\ ~ contains "above $50,000.00"
         (alert_markup "BITCOIN" "below" "$50,000.00"))
  /\ (read_field Sample.bitcoin_snapshot alerts
      = VArr [Sample.high_alert; Sample.low_alert]
      /\ fst (updateAlerts shared loaded) = Ok tt
      /\ List.length (alertsList (snd (updateAlerts shared loaded))) = 3
      /\ option_map className
           (nth_error (alertsList (snd (updateAlerts shared loaded))) 2)
         = Some "alert alert-high"
      /\ option_map innerHTML
           (nth_error (alertsList (snd (updateAlerts shared loaded))) 2)
         = Some (lf ++ spaces 20
                 ++ "<strong>ETHEREUM</strong> price is above $3,000.00"
                 ++ lf ++ spaces 16)).
Proof.
  cbv zeta. split; [split|].
  - vm_compute; reflexivity.
  - intros Hcontains. apply contains_includes in Hcontains.
    vm_compute in Hcontains. discriminate.
  - repeat split; vm_compute; reflexivity.
Qed.

Lemma updateAlerts_high_then_low_witness :
  let others_before := [("ethereum", Sample.ethereum_snapshot)] in
  let others_after :=
    [("solana", VObj [("usd", VNum 20); ("usd_24h_change", VNum 1);
                      ("alerts", VArr [])])] in
  Forall (fun entry =>
            nullish (snd entry) = false
            /\ (ToBoolean (read_field (snd entry) alerts) = false
                \/ read_field (snd entry) alerts = VArr []))
         (others_before ++ others_after)%list
  /\ exists first second,
       updateAlerts
         (VObj (others_before
                ++ ("bitcoin", Sample.bitcoin_snapshot) :: others_after)%list)
         loaded
       = (Ok tt, set_alertsList [first; second] loaded)
       /\ className first = "alert alert-high"
       /\ contains "above $50,000.00" (innerHTML first)
       /\ className second = "alert alert-low"
       /\ contains "below $40,000.00" (innerHTML second).
Proof.
  cbv zeta.
  assert (Hothers :
    Forall (fun entry =>
              nullish (snd entry) = false
              /\ (ToBoolean (read_field (snd entry) alerts) = false
                  \/ read_field (snd entry) alerts = VArr []))
           ([("ethereum", Sample.ethereum_snapshot)]
            ++ [("solana", VObj [("usd", VNum 20); ("usd_24h_change", VNum 1);
                                 ("alerts", VArr [])])])%list).
  { constructor; [split; [reflexivity | left; reflexivity]|].
    constructor; [split; [reflexivity | right; reflexivity]|].
    constructor. }
  split; [exact Hothers|].
  apply (updateAlerts_high_then_low
           [("ethereum", Sample.ethereum_snapshot)]
           [("solana", VObj [("usd", VNum 20); ("usd_24h_change", VNum 1);
                             ("alerts", VArr [])])]
           Sample.bitcoin_snapshot Sample.high_alert Sample.low_alert loaded);
    try reflexivity.
  exact Hothers.
Defined.

(** ** Payloads the renderer accepts *)

Lemma set_priceChart_same (p : page) : set_priceChart (priceChart p) p = p.
Proof. destruct p; reflexivity. Qed.

Lemma lookup_In (key : string) (props : list (string * value)) (v : value) :
  lookup key props = Some v -> In (key, v) props.
Proof.
  induction props as [|[k w] rest IH]; simpl; [discriminate|].
  destruct (String.eqb_spec k key) as [->|_].
  - intros [= ->]. now left.
  - intros H. right. now apply IH.
Qed.

Lemma mapR_ok {A B : Type} (f : A -> result B) (xs : list A) :
  Forall (fun a => exists b, f a = Ok b) xs -> exists bs, mapR f xs = Ok bs.
Proof.
  induction 1 as [|a rest [b Hb] _ [bs IH]]; simpl.
  - now exists [].
  - rewrite Hb; simpl. rewrite IH; simpl. now exists (b :: bs).
Qed.

Lemma point_ok_date (d : value) :
  point_ok d = true -> exists t, point_date d = Ok t.
Proof.
  unfold point_ok. rewrite andb_true_iff, negb_true_iff. intros [Hn Hp].
  unfold point_date, times. rewrite (Get_read_field d _ Hn). cbn [rbind].
  destruct (printable_ToNumber _ Hp) as [n ->]. cbn [rbind].
  eexists; reflexivity.
Qed.

Lemma point_ok_price (d : value) :
  point_ok d = true -> exists v, point_price d = Ok v.
Proof.
  unfold point_ok. rewrite andb_true_iff, negb_true_iff. intros [Hn _].
  unfold point_price. rewrite (Get_read_field d _ Hn). eexists; reflexivity.
Qed.

(** On a HistoryMap the chart renderer returns: with the plot of the coin's
    points when the map has an entry for the coin, and without drawing when
    it has none and the coin is a coin id. *)
Lemma HistoryMap_chart_effect (coin : string) (history : value) :
  HistoryMap history = true ->
  match history_entry coin history with
  | Some entry =>
      exists points timestamps prices,
        entry = VArr points
        /\ mapR point_date points = Ok timestamps
        /\ mapR point_price points = Ok prices
        /\ chart_effect coin history
           = Ok (Some {| plot_data := [chart_trace coin timestamps prices];
                         plot_layout := chart_layout |})
  | None => coin_id coin = true -> chart_effect coin history = Ok None
  end.
Proof.
  destruct history as [| | | | | |entries]; simpl; try discriminate.
  intros Hmap. rewrite forallb_forall in Hmap.
  destruct (lookup coin entries) as [entry|] eqn:Hentry.
  - specialize (Hmap _ (lookup_In _ _ _ Hentry)). simpl in Hmap.
    destruct entry as [| | | | |points|]; try discriminate.
    rewrite forallb_forall in Hmap.
    destruct (mapR_ok point_date points) as [timestamps Hts].
    { apply Forall_forall. intros d Hd. apply point_ok_date. auto. }
    destruct (mapR_ok point_price points) as [prices Hps].
    { apply Forall_forall. intros d Hd. apply point_ok_price. auto. }
    exists points, timestamps, prices.
    repeat split; try assumption.
    exact (chart_effect_entry coin entries points timestamps prices
             Hentry Hts Hps).
  - intros Hid. unfold chart_effect; simpl.
    now rewrite Hentry, (coin_id_not_inherited coin Hid).
Qed.

Lemma HistoryMap_chart_returns (coin : string) (history : value) :
  HistoryMap history = true -> coin_id coin = true ->
  exists drawn, chart_effect coin history = Ok drawn.
Proof.
  intros Hmap Hid. pose proof (HistoryMap_chart_effect coin history Hmap) as H.
  destruct (history_entry coin history).
  - destruct H as (points & ts & ps & _ & _ & _ & ->). eexists; reflexivity.
  - rewrite (H Hid). eexists; reflexivity.
Qed.

Lemma HistoryMap_chart_plottable (coin : string) (history : value) :
  HistoryMap history = true -> plottable coin history = true ->
  exists drawn, chart_effect coin history = Ok drawn.
Proof.
  intros Hmap Hplot.
  pose proof (HistoryMap_chart_effect coin history Hmap) as H.
  unfold plottable in Hplot.
  destruct (history_entry coin history).
  - destruct H as (points & ts & ps & _ & _ & _ & ->). eexists; reflexivity.
  - rewrite orb_false_r in Hplot. rewrite (H Hplot). eexists; reflexivity.
Qed.

Lemma LatestSnapshotMap_table (data : value) :
  LatestSnapshotMap data = true -> snd (table_effect data) = Ok tt.
Proof.
  intros Hmap. destruct (LatestSnapshotMap_entries _ Hmap) as [entries [-> Hall]].
  unfold table_effect; simpl. apply gather_snd_ok.
  eapply Forall_impl; [|exact Hall].
  intros [coin info] Hok; simpl in *.
  destruct (snapshot_ok_row coin info Hok) as (t1 & t2 & t3 & t4 & t5 & Hrow).
  unfold row_of; simpl. now rewrite Hrow.
Qed.

Lemma LatestSnapshotMap_alerts (data : value) :
  LatestSnapshotMap data = true -> snd (alerts_effect data) = Ok tt.
Proof.
  intros Hmap. destruct (LatestSnapshotMap_entries _ Hmap) as [entries [-> Hall]].
  unfold alerts_effect; simpl. apply gather_snd_ok.
  eapply Forall_impl; [|exact Hall].
  intros [coin info] Hok. now apply snapshot_ok_alerts.
Qed.

(** ** Missing and malformed fields *)

Lemma Forall2_map_left {A B C : Type} (R : B -> C -> Prop) (f : A -> B)
  (xs : list A) (ys : list C) :
  Forall2 (fun a c => R (f a) c) xs ys -> Forall2 R (map f xs) ys.
Proof. induction 1; simpl; constructor; auto. Qed.

Lemma gather_flat {A B C : Type} (f : A -> list B * result unit)
  (g : A -> list C) (R : C -> B -> Prop) (xs : list A) :
  Forall (fun a => exists out, f a = (out, Ok tt) /\ Forall2 R (g a) out) xs ->
  exists outs, gather f xs = (outs, Ok tt) /\ Forall2 R (flat_map g xs) outs.
Proof.
  induction 1 as [|a rest [out [Hf HR]] _ [outs [IH HF]]]; simpl.
  - exists []. split; [reflexivity | constructor].
  - rewrite Hf, IH. exists (out ++ outs)%list.
    split; [reflexivity | now apply Forall2_app].
Qed.

Lemma snapshot_ok_carried (coin : string) (info : value) :
  snapshot_ok info = true ->
  exists out,
    alerts_of (coin, info) = (out, Ok tt)
    /\ Forall2 shows (carried_by (coin, info)) out.
Proof.
  unfold snapshot_ok. rewrite !andb_true_iff, negb_true_iff.
  intros [[[[[[Hn _] _] _] _] _] Ha].
  unfold alerts_of, carried_by; cbn [fst snd].
  rewrite (Get_read_field info alerts Hn).
  unfold alerts_ok in Ha.
  destruct (ToBoolean (read_field info alerts)) eqn:Htruthy.
  - destruct (read_field info alerts) as [| | | | |elems|]; try discriminate.
    cbn [forEach_receiver].
    destruct (gather_one_ok (alertDiv coin)
                (fun alert entry => alertDiv coin alert = Ok entry) elems)
      as [out [Hout HF]].
    { apply Forall_forall. intros a Hin. rewrite forallb_forall in Ha.
      destruct (alert_ok_alertDiv coin a (Ha a Hin)) as [entry He].
      now exists entry. }
    exists out. split; [exact Hout|].
    apply Forall2_map_left. exact HF.
  - exists []. split; [reflexivity|].
    destruct (read_field info alerts); try constructor. discriminate.
Qed.

Lemma snapshot_ok_shows_defaults (coin : string) (info : value) :
  snapshot_ok info = true ->
  exists row, row_of (coin, info) = Ok row /\ shows_defaults info row.
Proof.
  unfold snapshot_ok. rewrite !andb_true_iff, negb_true_iff.
  intros [[[[[[Hn Husd] Hchange] Hrsi] Hma7] Hma30] _].
  unfold row_of, row_innerHTML, price_cell, change_cell, rsi_cell, ma_7_cell,
    ma_30_cell. cbn [fst snd].
  rewrite !(Get_read_field info) by assumption. cbn [rbind].
  destruct (formatPrice (read_field info usd)) as [t1|e] eqn:E1;
    [|destruct (printable_formatPrice _ Husd); congruence].
  destruct (formatChange (read_field info usd_24h_change)) as [t2|e] eqn:E2;
    [|destruct (printable_formatChange _ Hchange); congruence].
  destruct (formatNumber (or_else (read_field info rsi) (VNum 0)))
    as [t3|e] eqn:E3;
    [|destruct (printable_formatNumber _ (printable_or_else _ Hrsi)); congruence].
  destruct (formatPrice (or_else (read_field info ma_7) (VNum 0)))
    as [t4|e] eqn:E4;
    [|destruct (printable_formatPrice _ (printable_or_else _ Hma7)); congruence].
  destruct (formatPrice (or_else (read_field info ma_30) (VNum 0)))
    as [t5|e] eqn:E5;
    [|destruct (printable_formatPrice _ (printable_or_else _ Hma30)); congruence].
  cbn [rbind]. eexists. split; [reflexivity|].
  exists (capitalized coin), t1, t2, t3, t4, t5.
  split; [reflexivity|].
  unfold or_else in E3, E4, E5.
  repeat split.
  - intros Hfalsy. rewrite Hfalsy in E3. vm_compute in E3. congruence.
  - intros Hfalsy. rewrite Hfalsy in E4. vm_compute in E4. congruence.
  - intros Hfalsy. rewrite Hfalsy in E5. vm_compute in E5. congruence.
  - intros Hmissing. rewrite Hmissing in E1. vm_compute in E1. congruence.
  - intros Hmissing. rewrite Hmissing in E2. vm_compute in E2.
    injection E2 as <-. reflexivity.
Qed.

Lemma falsy_alerts_carried (entry : string * value) :
  ToBoolean (read_field (snd entry) alerts) = false -> carried_by entry = [].
Proof.
  unfold carried_by, read_field.
  destruct (Get (snd entry) alerts) as [[| | | | |elems|]|]; try reflexivity.
  discriminate.
Qed.

(** C1, as the code has it: on a payload whose entries are objects in which
    each of [usd], [usd_24h_change], [rsi], [ma_7], [ma_30] is missing or
    printable (every null, boolean, number and string is) and [alerts] is
    missing, falsy or an array of alerts, each other than null and with a
    threshold that is missing or printable, [updatePriceTable] and
    [updateAlerts] return without raising, and so does [updatePriceChart]
    on a HistoryMap for a coin that is a coin id or has an entry in it.
    In the row the table is left with for an entry, a missing or falsy
    [rsi] reads [0.00] and a missing or falsy moving average [$0.00]; a
    missing [usd] reads [$NaN] and a missing [usd_24h_change] [NaN%] in the
    negative-change class, not zero.  The alert list is left with one entry
    per alert carried, so a coin whose alerts are missing adds none. *)
Theorem render_tolerates_missing_fields
  (entries : list (string * value)) (p : page) :
  LatestSnapshotMap (VObj entries) = true ->
  exists rows shown,
    updatePriceTable (VObj entries) p = (Ok tt, set_priceTable rows p)
    /\ updateAlerts (VObj entries) p = (Ok tt, set_alertsList shown p)
    /\ (forall coin history,
          HistoryMap history = true -> plottable coin history = true ->
          fst (updatePriceChart coin history p) = Ok tt)
    /\ Forall2 (fun entry row =>
                  tr_click row = fst entry /\ shows_defaults (snd entry) row)
         entries rows
    /\ Forall2 shows (carried entries) shown
    /\ (forall entry,
          In entry entries ->
          ToBoolean (read_field (snd entry) alerts) = false ->
          carried_by entry = []).
Proof.
  intros Hmap.
  destruct (LatestSnapshotMap_entries _ Hmap) as [es [[= <-] Hall]].
  destruct (gather_one_ok row_of
              (fun entry row =>
                 tr_click row = fst entry /\ shows_defaults (snd entry) row)
              entries)
    as [rows [Hrows HFrows]].
  { eapply Forall_impl; [|exact Hall].
    intros [coin info] Hok; cbn [fst snd] in *.
    destruct (snapshot_ok_shows_defaults coin info Hok) as [row [Hrow Hshows]].
    exists row. split; [exact Hrow|]. split; [|exact Hshows].
    unfold row_of in Hrow. cbn [fst snd] in Hrow.
    destruct (row_innerHTML coin info); [|discriminate].
    cbn [rbind] in Hrow. injection Hrow as <-. reflexivity. }
  destruct (gather_flat alerts_of carried_by shows entries)
    as [shown [Hshown HFshown]].
  { eapply Forall_impl; [|exact Hall].
    intros [coin info] Hok. now apply snapshot_ok_carried. }
  exists rows, shown.
  rewrite updatePriceTable_effect, updateAlerts_effect.
  unfold table_effect, alerts_effect. cbn [Object_entries].
  rewrite Hrows, Hshown.
  split; [reflexivity|]. split; [reflexivity|].
  split.
  { intros coin history Hh Hplot. rewrite updatePriceChart_effect.
    destruct (HistoryMap_chart_plottable coin history Hh Hplot)
      as [[drawn|] ->]; reflexivity. }
  split; [exact HFrows|]. split; [exact HFshown|].
  intros entry _. apply falsy_alerts_carried.
Qed.

Lemma render_tolerates_missing_fields_witness :
  let degraded :=
    [("bitcoin", VObj [("usd_24h_change", VNum 2); ("rsi", VNull)]);
     ("ethereum", VObj [("ma_7", VNum 0)])] in
  LatestSnapshotMap (VObj degraded) = true
  /\ exists first second name change other_name,
       updatePriceTable (VObj degraded) loaded
       = (Ok tt, set_priceTable [first; second] loaded)
       /\ updateAlerts (VObj degraded) loaded
          = (Ok tt, set_alertsList [] loaded)
       /\ tr_innerHTML first
          = lf ++ spaces 12 ++ "<td>" ++ name ++ "</td>"
            ++ lf ++ spaces 12 ++ "<td>$NaN</td>"
            ++ lf ++ spaces 12 ++ "<td>" ++ change ++ "</td>"
            ++ lf ++ spaces 12 ++ "<td>0.00</td>"
            ++ lf ++ spaces 12 ++ "<td>$0.00</td>"
            ++ lf ++ spaces 12 ++ "<td>$0.00</td>"
            ++ lf ++ spaces 8
       /\ tr_innerHTML second
          = lf ++ spaces 12 ++ "<td>" ++ other_name ++ "</td>"
            ++ lf ++ spaces 12 ++ "<td>$NaN</td>"
            ++ lf ++ spaces 12 ++ "<td><span class=" ++ dquote
            ++ "negative-change" ++ dquote ++ ">NaN%</span></td>"
            ++ lf ++ spaces 12 ++ "<td>0.00</td>"
            ++ lf ++ spaces 12 ++ "<td>$0.00</td>"
            ++ lf ++ spaces 12 ++ "<td>$0.00</td>"
            ++ lf ++ spaces 8.
Proof.
  cbv zeta. split; [reflexivity|].
  destruct (render_tolerates_missing_fields
              [("bitcoin", VObj [("usd_24h_change", VNum 2); ("rsi", VNull)]);
               ("ethereum", VObj [("ma_7", VNum 0)])]
              loaded)
    as (rows & shown & Htable & Halerts & _ & Hrows & Hshown & _);
    [reflexivity|].
  inversion Hrows as [|e1 first es1 rest1 [_ H1] Hrest1]; subst.
  inversion Hrest1 as [|e2 second es2 rest2 [_ H2] Hrest2]; subst.
  inversion Hrest2; subst.
  inversion Hshown; subst.
  destruct H1 as (n1 & p1 & c1 & r1 & a1 & b1 & Hm1 & Hr1 & Ha1 & Hb1 & Hp1 & _).
  destruct H2 as (n2 & p2 & c2 & r2 & a2 & b2 & Hm2 & Hr2 & Ha2 & Hb2 & Hp2 & Hc2).
  cbn [snd] in *.
  rewrite (Hr1 eq_refl), (Ha1 eq_refl), (Hb1 eq_refl), (Hp1 eq_refl) in Hm1.
  rewrite (Hr2 eq_refl), (Ha2 eq_refl), (Hb2 eq_refl), (Hp2 eq_refl),
    (Hc2 eq_refl) in Hm2.
  exists first, second, n1, c1, n2.
  split; [exact Htable|]. split; [exact Halerts|].
  split; [exact Hm1 | exact Hm2].
Defined.

(** C1, as stated, fails twice over.  An [alerts] field of the wrong shape
    (here an object where a list is expected) makes [updateAlerts] raise,
    and so does a threshold that cannot be converted to a primitive (an
    object whose own [toString] is not callable); such a value under [usd]
    makes [updatePriceTable] raise.  And a missing [usd] or
    [usd_24h_change] is not shown as zero: the row reads [$NaN]. *)
Lemma render_raises_on_malformed_alerts :
  fst (updateAlerts
         (VObj [("bitcoin",
                 VObj [ ("usd", VNum 45000.5); ("usd_24h_change", VNum 2);
                        ("alerts", VObj [("high", VNum 50000)]) ])])
         loaded)
  = Throw TypeError
  /\ price_cell (VObj [("usd_24h_change", VNum 2)]) = Ok "$NaN"
  /\ change_cell (VObj [("usd", VNum 45000.5)])
     = Ok ("<span class=" ++ dquote ++ "negative-change" ++ dquote
           ++ ">NaN%</span>")
  /\ fst (updateAlerts
            (VObj [("bitcoin",
                    VObj [ ("usd", VNum 45000.5); ("usd_24h_change", VNum 2);
                           ("alerts",
                            VArr [VObj [("type", VStr "high");
                                        ("threshold",
                                         VObj [("toString", VNull)])]]) ])])
            loaded)
     = Throw TypeError
  /\ fst (updatePriceTable
            (VObj [("bitcoin",
                    VObj [ ("usd", VObj [("toString", VNull)]);
                           ("usd_24h_change", VNum 2) ])])
            loaded)
     = Throw TypeError
  /\ map tr_innerHTML
       (priceTable
          (snd (updatePriceTable
                  (VObj [("bitcoin", VObj [("usd_24h_change", VNum 2)])])
                  loaded)))
     = [ lf ++ spaces 12 ++ "<td>Bitcoin</td>"
         ++ lf ++ spaces 12 ++ "<td>$NaN</td>"
         ++ lf ++ spaces 12 ++ "<td><span class=" ++ dquote
         ++ "positive-change" ++ dquote ++ ">+2.00%</span></td>"
         ++ lf ++ spaces 12 ++ "<td>0.00</td>"
         ++ lf ++ spaces 12 ++ "<td>$0.00</td>"
         ++ lf ++ spaces 12 ++ "<td>$0.00</td>"
         ++ lf ++ spaces 8 ].
Proof. repeat split; vm_compute; reflexivity. Qed.

(** ** Push events *)

(** C3, as the code has it: on a [price_update] event that carries a
    LatestSnapshotMap and a HistoryMap, received while [selectedCoin] is a
    coin id or a key the new history holds an entry for, the handler
    returns having replaced [priceHistory] by the event's history; the
    table it leaves is the one [updatePriceTable] renders from the event's
    latest data, the chart the one [updatePriceChart] renders for the
    current [selectedCoin] from the new history (the plot of the coin's
    points when the history has them), and the alert list the one
    [updateAlerts] renders from the same latest data; [selectedCoin]
    stays. *)
Theorem price_update_rerenders (data : value) (p : page) :
  LatestSnapshotMap (read_field data latest_data) = true ->
  HistoryMap (read_field data price_history) = true ->
  plottable (selectedCoin p) (read_field data price_history) = true ->
  let latest := read_field data latest_data in
  let history := read_field data price_history in
  exists after,
    on_price_update data p = (Ok tt, after)
    /\ priceHistory after = history
    /\ updatePriceTable latest p = (Ok tt, set_priceTable (priceTable after) p)
    /\ updatePriceChart (selectedCoin p) history p
       = (Ok tt, set_priceChart (priceChart after) p)
    /\ (forall entry,
          history_entry (selectedCoin p) history = Some entry ->
          exists points timestamps prices,
            entry = VArr points
            /\ mapR point_date points = Ok timestamps
            /\ mapR point_price points = Ok prices
            /\ priceChart after
               = Some {| plot_data :=
                           [chart_trace (selectedCoin p) timestamps prices];
                         plot_layout := chart_layout |})
    /\ updateAlerts latest p = (Ok tt, set_alertsList (alertsList after) p)
    /\ selectedCoin after = selectedCoin p
    /\ console after = console p
    /\ requests after = requests p.
Proof.
  intros Hlatest Hhistory Hplot. cbv zeta.
  assert (Hn : nullish data = false).
  { destruct data; try reflexivity; discriminate Hlatest. }
  pose proof (LatestSnapshotMap_table _ Hlatest) as Htable.
  pose proof (LatestSnapshotMap_alerts _ Hlatest) as Halerts.
  pose proof (HistoryMap_chart_effect (selectedCoin p) _ Hhistory) as Hchart.
  destruct (HistoryMap_chart_plottable (selectedCoin p) _ Hhistory Hplot)
    as [drawn Hdrawn].
  unfold on_price_update, bind, lift, write, read.
  rewrite !(Get_read_field data) by assumption.
  rewrite !updatePriceTable_effect, Htable. cbn [fst snd selectedCoin priceHistory
    set_priceTable set_priceHistory].
  rewrite !updatePriceChart_effect, Hdrawn.
  set (latest := read_field data latest_data) in *.
  set (history := read_field data price_history) in *.
  destruct drawn as [drawn|].
  - rewrite !updateAlerts_effect, Halerts.
    eexists. split; [reflexivity|]. cbn.
    repeat split.
    intros entry Hentry. rewrite Hentry in Hchart.
    destruct Hchart as (points & ts & ps & He & Hts & Hps & Heff).
    exists points, ts, ps. repeat split; try assumption. congruence.
  - rewrite !updateAlerts_effect, Halerts.
    eexists. split; [reflexivity|]. cbn.
    repeat split.
    + now rewrite set_priceChart_same.
    + intros entry Hentry. rewrite Hentry in Hchart.
      destruct Hchart as (points & ts & ps & He & Hts & Hps & Heff).
      congruence.
Qed.

Lemma price_update_rerenders_witness :
  plottable (selectedCoin loaded) (read_field Sample.push price_history) = true
  /\ exists after,
       on_price_update Sample.push loaded = (Ok tt, after)
       /\ priceHistory after = VObj Sample.history_entries
       /\ List.length (priceTable after) = 2
       /\ List.length (alertsList after) = 2
       /\ option_map (fun drawn => map trace_y (plot_data drawn))
            (priceChart after)
          = Some [[VNum 45000; VNum 45000.5]].
Proof.
  split; [reflexivity|].
  destruct (price_update_rerenders Sample.push loaded)
    as (after & Hrun & Hhistory & _); try reflexivity.
  exists after. split; [exact Hrun|]. split; [exact Hhistory|].
  assert (Hafter : after = snd (on_price_update Sample.push loaded))
    by now rewrite Hrun.
  rewrite Hafter. repeat split; vm_compute; reflexivity.
Defined.

(** C3, as stated, fails: the handler has no error handling, so when one
    of the render functions raises, the ones after it do not run.  A push
    whose latest data holds a [null] entry stops in the table, and neither
    the chart nor the alert list is rendered again; a push whose history
    holds something that is not a list stops in the chart, and the alert
    list is not rendered.  The same happens on a well-formed push once
    [selectedCoin] is the name of a member every object inherits: after a
    push whose table has a row keyed [constructor] and a click on that row,
    the next push raises in the chart and leaves the alert list as it
    was. *)
Lemma price_update_stops_before_alerts :
  let null_entry :=
    VObj [("latest_data",
           VObj [("ethereum", Sample.ethereum_snapshot); ("bitcoin", VNull)]);
          ("price_history", VObj [("bitcoin", VArr [])])] in
  let shown := snd (on_price_update Sample.push loaded) in
  let bad_history :=
    VObj [("latest_data", VObj Sample.latest_entries);
          ("price_history", VObj [("bitcoin", VStr "n/a")])] in
  let inherited_key :=
    VObj [("latest_data", VObj [("constructor", Sample.ethereum_snapshot)]);
          ("price_history", VObj [])] in
  let clicked := run loaded [PriceUpdate inherited_key; RowClick 0] in
  (fst (on_price_update null_entry shown) = Throw TypeError
   /\ List.length (alertsList shown) = 2
   /\ alertsList (snd (on_price_update null_entry shown)) = alertsList shown
   /\ alertsList
        (snd (updateAlerts (read_field null_entry latest_data) shown)) = []
   /\ priceChart (snd (on_price_update null_entry shown)) = priceChart shown
   /\ priceChart
        (snd (updatePriceChart "bitcoin"
                (read_field null_entry price_history) shown))
      <> priceChart shown)
  /\ (fst (on_price_update bad_history loaded) = Throw TypeError
      /\ alertsList (snd (on_price_update bad_history loaded)) = []
      /\ List.length
           (alertsList
              (snd (updateAlerts (read_field bad_history latest_data) loaded)))
         = 2)
  /\ (LatestSnapshotMap (read_field inherited_key latest_data) = true
      /\ HistoryMap (read_field inherited_key price_history) = true
      /\ LatestSnapshotMap (read_field Sample.push latest_data) = true
      /\ HistoryMap (read_field Sample.push price_history) = true
      /\ selectedCoin clicked = "constructor"
      /\ fst (on_price_update Sample.push clicked) = Throw TypeError
      /\ alertsList (snd (on_price_update Sample.push clicked)) = []
      /\ List.length
           (alertsList
              (snd (updateAlerts (read_field Sample.push latest_data) clicked)))
         = 2).
Proof.
  cbv zeta. split; [|split].
  - repeat split; try (vm_compute; reflexivity).
    vm_compute. discriminate.
  - repeat split; vm_compute; reflexivity.
  - repeat split; vm_compute; reflexivity.
Qed.

(** ** The selected coin stays a coin id *)

Lemma gather_one_Forall {A B : Type} (g : A -> result B) (P : B -> Prop)
  (xs : list A) :
  Forall (fun a => forall b, g a = Ok b -> P b) xs ->
  Forall P (fst (gather (fun a => one (g a)) xs)).
Proof.
  induction 1 as [|a rest Ha _ IH]; simpl; [constructor|].
  destruct (g a) as [b|e]; simpl; [|constructor].
  destruct (gather (fun a => one (g a)) rest) as [more r]; simpl in *.
  constructor; [now apply Ha | exact IH].
Qed.

Lemma table_effect_clicks (data : value) :
  coin_keys data = true ->
  Forall (fun row => coin_id (tr_click row) = true) (fst (table_effect data)).
Proof.
  unfold coin_keys, table_effect.
  destruct (Object_entries data) as [entries|e]; [|constructor].
  intros Hkeys. rewrite forallb_forall in Hkeys.
  apply gather_one_Forall. apply Forall_forall.
  intros entry Hin row. unfold row_of.
  destruct (row_innerHTML (fst entry) (snd entry)); simpl; [|discriminate].
  intros [= <-]. simpl. now apply Hkeys.
Qed.

Lemma updatePriceTable_selectable (data : value) (p : page) :
  coin_keys data = true -> selectable p ->
  selectable (snd (updatePriceTable data p)).
Proof.
  intros Hkeys [Hsel _]. rewrite updatePriceTable_effect.
  split; [exact Hsel | now apply table_effect_clicks].
Qed.

Lemma updatePriceChart_selectable (coin : string) (history : value) (p : page) :
  selectable p -> selectable (snd (updatePriceChart coin history p)).
Proof.
  intros Hp. rewrite updatePriceChart_effect.
  destruct (chart_effect coin history) as [[drawn|]|e]; exact Hp.
Qed.

Lemma updateAlerts_selectable (data : value) (p : page) :
  selectable p -> selectable (snd (updateAlerts data p)).
Proof. intros Hp. rewrite updateAlerts_effect. exact Hp. Qed.

(** Every turn of the event loop keeps the selectable coins coin ids, as
    long as the payloads are keyed by coin ids. *)
Lemma step_selectable (p : page) (ev : event) :
  event_ok ev = true -> selectable p -> selectable (step p ev).
Proof.
  intros Hev Hp. unfold step.
  destruct ev as [|data|data|data|position]; simpl in *.
  - exact Hp.
  - unfold on_price_update, bind, lift, write, read.
    destruct (Get data price_history) as [history|e] eqn:Hhistory; [|exact Hp].
    assert (Hn : nullish data = false)
      by (destruct data; try reflexivity; discriminate Hhistory).
    rewrite (Get_read_field data latest_data Hn).
    pose proof (updatePriceTable_selectable (read_field data latest_data)
                  (set_priceHistory history p) Hev Hp) as Htable.
    destruct (updatePriceTable _ (set_priceHistory history p))
      as [[u|e] p1]; simpl in *; [|exact Htable].
    pose proof (updatePriceChart_selectable (selectedCoin p1) (priceHistory p1)
                  p1 Htable) as Hchart.
    destruct (updatePriceChart (selectedCoin p1) (priceHistory p1) p1)
      as [[u'|e] p2]; simpl in *; [|exact Hchart].
    now apply updateAlerts_selectable.
  - now apply updatePriceTable_selectable.
  - unfold on_history, bind, write, read; simpl.
    now apply (updatePriceChart_selectable _ _ (set_priceHistory data p)).
  - unfold bind, read.
    destruct (nth_error (priceTable p) position) as [row|] eqn:Hrow; [|exact Hp].
    destruct Hp as [Hsel Hrows].
    rewrite Forall_forall in Hrows.
    pose proof (Hrows row (nth_error_In _ _ Hrow)) as Hclick.
    unfold selectCoin, bind, write, read.
    apply (updatePriceChart_selectable _ _ (set_selectedCoin (tr_click row) p)).
    split; [exact Hclick | now apply Forall_forall].
Qed.

Lemma run_selectable (evs : list event) (p : page) :
  forallb event_ok evs = true -> selectable p -> selectable (run p evs).
Proof.
  revert p. induction evs as [|ev rest IH]; intros p Hevs Hp; simpl; [exact Hp|].
  simpl in Hevs. apply andb_true_iff in Hevs as [Hev Hrest].
  apply IH; [exact Hrest | now apply step_selectable].
Qed.

Lemma loaded_selectable : selectable loaded.
Proof. split; [reflexivity | constructor]. Qed.

(** ** The data model is within what the renderer accepts *)

Lemma number_printable (v : value) : number v = true -> printable v = true.
Proof. destruct v; simpl; intros H; try discriminate; reflexivity. Qed.

Lemma optional_number_printable (v : value) :
  optional_number v = true -> printable v = true.
Proof. destruct v; simpl; intros H; try discriminate; reflexivity. Qed.

Lemma Alert_alert_ok (a : value) : Alert a = true -> alert_ok a = true.
Proof.
  destruct a; simpl; try discriminate.
  rewrite andb_true_iff. intros [_ Hthreshold].
  unfold alert_ok. simpl. now apply number_printable.
Qed.

Lemma CoinSnapshot_snapshot_ok (info : value) :
  CoinSnapshot info = true -> snapshot_ok info = true.
Proof.
  destruct info as [| | | | | |props]; simpl; try discriminate.
  rewrite !andb_true_iff.
  intros [[[[[Husd Hchange] Hrsi] Hma7] Hma30] Halerts].
  unfold snapshot_ok. rewrite !andb_true_iff. simpl nullish.
  repeat split; auto using number_printable, optional_number_printable.
  unfold alerts_ok.
  destruct (read_field (VObj props) alerts) as [| | | | |elems|];
    try discriminate; try reflexivity.
  simpl. apply forallb_forall. intros a Ha.
  rewrite forallb_forall in Halerts. apply Alert_alert_ok. auto.
Qed.

(** * Further properties of the script *)

(** ** The handlers against the summaries *)

Lemma selectCoin_effect (coin : string) (p : page) :
  selectCoin coin p
  = match chart_effect coin (priceHistory p) with
    | Ok (Some drawn) =>
        (Ok tt, set_priceChart (Some drawn) (set_selectedCoin coin p))
    | Ok None => (Ok tt, set_selectedCoin coin p)
    | Throw e => (Throw e, set_selectedCoin coin p)
    end.
Proof.
  unfold selectCoin, bind, write, read. now rewrite updatePriceChart_effect.
Qed.

Lemma on_history_effect (data : value) (p : page) :
  on_history data p
  = match chart_effect (selectedCoin p) data with
    | Ok (Some drawn) =>
        (Ok tt, set_priceChart (Some drawn) (set_priceHistory data p))
    | Ok None => (Ok tt, set_priceHistory data p)
    | Throw e => (Throw e, set_priceHistory data p)
    end.
Proof.
  unfold on_history, bind, write, read. now rewrite updatePriceChart_effect.
Qed.

Lemma on_price_update_effect (data : value) (p : page) :
  on_price_update data p
  = match Get data price_history with
    | Throw e => (Throw e, p)
    | Ok history =>
        let latest := read_field data latest_data in
        let tabled :=
          set_priceTable (fst (table_effect latest)) (set_priceHistory history p) in
        match snd (table_effect latest) with
        | Throw e => (Throw e, tabled)
        | Ok _ =>
            match chart_effect (selectedCoin p) history with
            | Throw e => (Throw e, tabled)
            | Ok drawn =>
                (snd (alerts_effect latest),
                 set_alertsList (fst (alerts_effect latest))
                   match drawn with
                   | Some plotted => set_priceChart (Some plotted) tabled
                   | None => tabled
                   end)
            end
        end
    end.
Proof.
  unfold on_price_update, bind, lift, write, read.
  destruct (Get data price_history) as [history|e] eqn:Hhistory; [|reflexivity].
  assert (Hn : nullish data = false)
    by (destruct data; try reflexivity; discriminate Hhistory).
  rewrite !(Get_read_field data latest_data Hn).
  rewrite updatePriceTable_effect. cbv zeta.
  destruct (snd (table_effect (read_field data latest_data))) as [u|e];
    [|reflexivity].
  cbn [fst snd]. rewrite updatePriceChart_effect.
  cbn [selectedCoin priceHistory set_priceTable set_priceHistory].
  destruct (chart_effect (selectedCoin p) history) as [[plotted|]|e];
    try reflexivity; now rewrite updateAlerts_effect.
Qed.

(** ** Each render function writes its own region *)

(** X1: whatever it is given, and also when it throws part-way,
    [updatePriceTable] changes nothing but the price table, [updateAlerts]
    nothing but the alert list, and [updatePriceChart] nothing but the
    chart. *)
Theorem render_functions_write_their_own_region
  (data : value) (coin : string) (history : value) (p : page) :
  (let q := snd (updatePriceTable data p) in
   alertsList q = alertsList p /\ priceChart q = priceChart p
   /\ selectedCoin q = selectedCoin p /\ priceHistory q = priceHistory p
   /\ console q = console p /\ requests q = requests p)
  /\ (let q := snd (updateAlerts data p) in
      priceTable q = priceTable p /\ priceChart q = priceChart p
      /\ selectedCoin q = selectedCoin p /\ priceHistory q = priceHistory p
      /\ console q = console p /\ requests q = requests p)
  /\ (let q := snd (updatePriceChart coin history p) in
      priceTable q = priceTable p /\ alertsList q = alertsList p
      /\ selectedCoin q = selectedCoin p /\ priceHistory q = priceHistory p
      /\ console q = console p /\ requests q = requests p).
Proof.
  cbv zeta.
  rewrite updatePriceTable_effect, updateAlerts_effect, updatePriceChart_effect.
  split; [|split].
  - cbn. repeat split.
  - cbn. repeat split.
  - destruct (chart_effect coin history) as [[drawn|]|e]; cbn; repeat split.
Qed.

(** ** Handling an event twice *)

(** X5: every handler but the connect handler is idempotent: handling the
    same push, the same response or the same click twice in a row leaves
    the page as handling it once does, whatever the payload. *)
Theorem handlers_idempotent (ev : event) (p : page) :
  ev <> Connected -> step (step p ev) ev = step p ev.
Proof.
  intros Hev. unfold step.
  destruct ev as [|data|data|data|position]; [contradiction| | | |];
    cbn [handler].
  - rewrite !on_price_update_effect.
    destruct (Get data price_history) as [history|e] eqn:Hhistory; cbn [snd].
    + cbv zeta.
      destruct (snd (table_effect (read_field data latest_data))) as [u|e];
        cbn [snd].
      * destruct (chart_effect (selectedCoin p) history) as [[plotted|]|e] eqn:Hc;
          cbn [snd selectedCoin set_alertsList set_priceChart set_priceTable
               set_priceHistory];
          rewrite ?Hc; reflexivity.
      * reflexivity.
    + reflexivity.
  - unfold on_latest. now rewrite !updatePriceTable_effect.
  - rewrite !on_history_effect.
    destruct (chart_effect (selectedCoin p) data) as [[drawn|]|e] eqn:Hc;
      cbn [snd selectedCoin set_priceChart set_priceHistory];
      rewrite ?Hc; reflexivity.
  - unfold bind, read.
    destruct (nth_error (priceTable p) position) as [row|] eqn:Hrow.
    + rewrite selectCoin_effect.
      destruct (chart_effect (tr_click row) (priceHistory p)) as [[drawn|]|e] eqn:Hc;
        cbn [snd priceTable set_priceChart set_selectedCoin];
        rewrite Hrow, selectCoin_effect;
        cbn [priceHistory set_priceChart set_selectedCoin];
        rewrite Hc; reflexivity.
    + cbn [snd ret]. now rewrite Hrow.
Qed.

Lemma handlers_idempotent_witness :
  step (step loaded (PriceUpdate Sample.push)) (PriceUpdate Sample.push)
  = step loaded (PriceUpdate Sample.push).
Proof.
  apply (handlers_idempotent (PriceUpdate Sample.push) loaded). discriminate.
Defined.

(** ** The two initial responses *)

(** X6: the continuations of the two initial requests commute: whichever
    response arrives first, and whatever the two payloads are, the page
    ends up the same. *)
Theorem initial_responses_commute (latest history : value) (p : page) :
  step (step p (LatestResponse latest)) (HistoryResponse history)
  = step (step p (HistoryResponse history)) (LatestResponse latest).
Proof.
  unfold step. cbn [handler]. unfold on_latest.
  rewrite !on_history_effect, !updatePriceTable_effect.
  cbn [snd selectedCoin set_priceTable].
  destruct (chart_effect (selectedCoin p) history) as [[drawn|]|e];
    reflexivity.
Qed.

(** ** Requests and console over a session *)

Lemma step_requests_console (p : page) (ev : event) :
  requests (step p ev) = requests p
  /\ console (step p ev)
     = (console p
        ++ match ev with
           | Connected => ["Connected to server"]
           | _ => []
           end)%list.
Proof.
  unfold step.
  destruct ev as [|data|data|data|position]; cbn [handler].
  - split; reflexivity.
  - rewrite on_price_update_effect, app_nil_r.
    destruct (Get data price_history) as [history|e]; [|split; reflexivity].
    cbv zeta.
    destruct (snd (table_effect (read_field data latest_data))) as [u|e];
      [|split; reflexivity].
    destruct (chart_effect (selectedCoin p) history) as [[plotted|]|e];
      split; reflexivity.
  - unfold on_latest. rewrite updatePriceTable_effect, app_nil_r.
    split; reflexivity.
  - rewrite on_history_effect, app_nil_r.
    destruct (chart_effect (selectedCoin p) data) as [[drawn|]|e];
      split; reflexivity.
  - unfold bind, read. rewrite app_nil_r.
    destruct (nth_error (priceTable p) position) as [row|];
      [|split; reflexivity].
    rewrite selectCoin_effect.
    destruct (chart_effect (tr_click row) (priceHistory p)) as [[drawn|]|e];
      split; reflexivity.
Qed.

(** X11: over any session the script issues no request beyond the two it
    issues when it loads, and the console gets exactly one line per socket
    connection: no handler fetches, polls or logs anything else, not even
    when it throws. *)
Theorem session_requests_and_console (evs : list event) (p : page) :
  requests (run p evs) = requests p
  /\ console (run p evs)
     = (console p ++ repeat "Connected to server" (connects evs))%list
  /\ requests (run loaded evs) = ["/api/latest"; "/api/history"].
Proof.
  assert (Hrun : forall q,
    requests (run q evs) = requests q
    /\ console (run q evs)
       = (console q ++ repeat "Connected to server" (connects evs))%list).
  { induction evs as [|ev rest IH]; intros q; cbn [run fold_left].
    - cbn [connects repeat]. now rewrite app_nil_r.
    - destruct (IH (step q ev)) as [Hreq Hcon].
      destruct (step_requests_console q ev) as [Hreq1 Hcon1].
      unfold run in Hreq, Hcon. rewrite Hreq, Hcon, Hreq1, Hcon1.
      split; [reflexivity|].
      rewrite <- app_assoc. destruct ev; reflexivity. }
  destruct (Hrun p) as [Hreq Hcon].
  split; [exact Hreq|]. split; [exact Hcon|].
  now destruct (Hrun loaded) as [-> _].
Qed.

(** ** The table when an entry fails *)

Lemma Forall2_nth_left {A B : Type} (R : A -> B -> Prop) (xs : list A)
  (ys : list B) (i : nat) (a : A) :
  Forall2 R xs ys -> nth_error xs i = Some a ->
  exists b, nth_error ys i = Some b /\ R a b.
Proof.
  intros HF. revert i. induction HF as [|x y xs ys Hxy _ IH]; intros i.
  - destruct i; discriminate.
  - destruct i as [|i]; simpl.
    + intros [= <-]. now exists y.
    + apply IH.
Qed.

Lemma row_of_renders (entry : string * value) (row : tr) :
  row_of entry = Ok row <-> renders entry row.
Proof.
  unfold row_of, renders. destruct entry as [coin info]; simpl.
  destruct (row_innerHTML coin info) as [markup|e]; simpl; split.
  - intros [= <-]. now split.
  - intros [[= ->] Hclick]. destruct row; simpl in *. now subst.
  - discriminate.
  - intros [Habs _]. discriminate.
Qed.

(** X2: rows are appended as the loop goes, so when the template of an
    entry throws (a null entry, say), [updatePriceTable] throws and the
    table holds the rows of the entries before it and nothing of the ones
    after; when the data itself is null or undefined the table is left
    empty. *)
Theorem updatePriceTable_keeps_rows_before_failure
  (good rest : list (string * value)) (coin : string) (info : value)
  (e : exn) (p : page) :
  Forall (fun entry =>
            exists markup, row_innerHTML (fst entry) (snd entry) = Ok markup)
         good ->
  row_innerHTML coin info = Throw e ->
  (exists rows,
     updatePriceTable (VObj (good ++ (coin, info) :: rest)%list) p
     = (Throw e, set_priceTable rows p)
     /\ Forall2 renders good rows)
  /\ (forall data, nullish data = true ->
        updatePriceTable data p = (Throw TypeError, set_priceTable [] p)).
Proof.
  intros Hgood Hbad. split.
  - destruct (gather_one_ok row_of renders good) as [rows [Hrows HF]].
    { eapply Forall_impl; [|exact Hgood].
      intros [c i] [markup Hm]; simpl in Hm.
      exists {| tr_innerHTML := markup; tr_click := c |}.
      split; [|now split].
      unfold row_of; simpl. now rewrite Hm. }
    exists rows. split; [|exact HF].
    rewrite updatePriceTable_effect. unfold table_effect.
    cbn [Object_entries]. rewrite gather_app, Hrows.
    assert (Hfail : one (row_of (coin, info)) = ([], Throw e))
      by (unfold row_of; cbn [fst snd]; now rewrite Hbad).
    cbn [gather]. rewrite Hfail. cbn [fst snd]. now rewrite app_nil_r.
  - intros data Hnull. rewrite updatePriceTable_effect.
    destruct data; try discriminate; reflexivity.
Qed.

Lemma updatePriceTable_keeps_rows_before_failure_witness :
  exists rows,
    updatePriceTable
      (VObj ([("bitcoin", Sample.bitcoin_snapshot)]
             ++ ("ethereum", VNull) :: [("solana", Sample.ethereum_snapshot)])%list)
      loaded
    = (Throw TypeError, set_priceTable rows loaded)
    /\ Forall2 renders [("bitcoin", Sample.bitcoin_snapshot)] rows.
Proof.
  apply (updatePriceTable_keeps_rows_before_failure
           [("bitcoin", Sample.bitcoin_snapshot)]
           [("solana", Sample.ethereum_snapshot)] "ethereum" VNull TypeError
           loaded).
  - repeat constructor. eexists. vm_compute. reflexivity.
  - reflexivity.
Defined.

(** ** Clicking a row *)

Lemma gather_one_nth {A B : Type} (g : A -> result B) (xs : list A)
  (i : nat) (b : B) :
  nth_error (fst (gather (fun a => one (g a)) xs)) i = Some b ->
  exists a, nth_error xs i = Some a /\ g a = Ok b.
Proof.
  revert i. induction xs as [|a rest IH]; intros i; simpl.
  - destruct i; discriminate.
  - destruct (g a) as [b0|e] eqn:Hg; simpl.
    + destruct (gather (fun a => one (g a)) rest) as [more r]; simpl in *.
      destruct i as [|i]; simpl.
      * intros [= <-]. now exists a.
      * apply IH.
    + destruct i; discriminate.
Qed.

(** X9: after [updatePriceTable] a click on the row at a position selects
    the coin of the entry at that position: always, for the rows a partial
    render left, and for every entry of a LatestSnapshotMap; a click event
    at a position the table has no row for changes nothing. *)
Theorem row_click_selects_its_coin
  (entries : list (string * value)) (position : nat) (coin : string)
  (info : value) (p : page) :
  LatestSnapshotMap (VObj entries) = true ->
  nth_error entries position = Some (coin, info) ->
  let q := snd (updatePriceTable (VObj entries) p) in
  selectedCoin (step q (RowClick position)) = coin
  /\ (forall beyond, List.length entries <= beyond ->
        step q (RowClick beyond) = q)
  /\ (forall data at_row row,
        nth_error (priceTable (snd (updatePriceTable data p))) at_row = Some row ->
        nth_error (keys data) at_row = Some (tr_click row)
        /\ selectedCoin (step (snd (updatePriceTable data p)) (RowClick at_row))
           = tr_click row).
Proof.
  intros Hmap Hentry. cbv zeta.
  assert (Hclick : forall q at_row row,
    nth_error (priceTable q) at_row = Some row ->
    selectedCoin (step q (RowClick at_row)) = tr_click row).
  { intros q at_row row Hrow. unfold step. cbn [handler]. unfold bind, read.
    rewrite Hrow, selectCoin_effect.
    destruct (chart_effect (tr_click row) (priceHistory q)) as [[drawn|]|e];
      reflexivity. }
  destruct (LatestSnapshotMap_entries _ Hmap) as [es [[= <-] Hall]].
  destruct (gather_one_ok row_of renders entries) as [rows [Hrows HF]].
  { eapply Forall_impl; [|exact Hall].
    intros [c i] Hok; simpl in Hok.
    destruct (snapshot_ok_row c i Hok) as (t1 & t2 & t3 & t4 & t5 & Hrow).
    exists {| tr_innerHTML := row_markup (capitalized c) t1 t2 t3 t4 t5;
              tr_click := c |}.
    split; [|now split].
    unfold row_of; simpl. now rewrite Hrow. }
  assert (Hq : snd (updatePriceTable (VObj entries) p) = set_priceTable rows p).
  { rewrite updatePriceTable_effect. unfold table_effect.
    cbn [Object_entries]. now rewrite Hrows. }
  rewrite Hq.
  split; [|split].
  - destruct (Forall2_nth_left _ _ _ _ _ HF Hentry) as [row [Hrow [_ Hc]]].
    rewrite (Hclick (set_priceTable rows p) position row Hrow). exact Hc.
  - intros beyond Hbeyond. unfold step. cbn [handler]. unfold bind, read.
    cbn [priceTable set_priceTable].
    rewrite (Forall2_length HF) in Hbeyond.
    apply nth_error_None in Hbeyond. now rewrite Hbeyond.
  - intros data at_row row Hrow. split; [|now apply Hclick].
    rewrite updatePriceTable_effect in Hrow. cbn [snd priceTable set_priceTable] in Hrow.
    unfold table_effect, keys in *.
    destruct (Object_entries data) as [es|e]; [|destruct at_row; discriminate].
    destruct (gather_one_nth _ _ _ _ Hrow) as [entry [Hentry' Hrow']].
    apply row_of_renders in Hrow'. destruct Hrow' as [_ Hc].
    rewrite Hc. now apply map_nth_error.
Qed.

Lemma row_click_selects_its_coin_witness :
  selectedCoin
    (step (snd (updatePriceTable (VObj Sample.latest_entries) loaded))
       (RowClick 1))
  = "ethereum".
Proof.
  apply (row_click_selects_its_coin Sample.latest_entries 1 "ethereum"
           Sample.ethereum_snapshot loaded); reflexivity.
Defined.

(** ** The alert list, in general *)

(** X3: on a LatestSnapshotMap [updateAlerts] returns and leaves one entry
    per alert the map carries, in order: coin by coin as the map lists
    them, and within a coin in the order of its alerts array; a coin whose
    alerts are missing, null or an empty array adds nothing. *)
Theorem updateAlerts_lists_carried_alerts
  (entries : list (string * value)) (p : page) :
  LatestSnapshotMap (VObj entries) = true ->
  exists shown,
    updateAlerts (VObj entries) p = (Ok tt, set_alertsList shown p)
    /\ Forall2 shows (carried entries) shown
    /\ List.length shown = List.length (carried entries).
Proof.
  intros Hmap.
  destruct (LatestSnapshotMap_entries _ Hmap) as [es [[= <-] Hall]].
  destruct (gather_flat alerts_of carried_by shows entries)
    as [shown [Hshown HF]].
  { eapply Forall_impl; [|exact Hall].
    intros [coin info] Hok. now apply snapshot_ok_carried. }
  exists shown. rewrite updateAlerts_effect. unfold alerts_effect.
  cbn [Object_entries]. rewrite Hshown.
  split; [reflexivity|]. split; [exact HF|].
  symmetry. exact (Forall2_length HF).
Qed.

Lemma updateAlerts_lists_carried_alerts_witness :
  exists shown,
    updateAlerts (VObj Sample.latest_entries) loaded
    = (Ok tt, set_alertsList shown loaded)
    /\ Forall2 shows
         [("bitcoin", Sample.high_alert); ("bitcoin", Sample.low_alert)] shown
    /\ List.length shown = 2%nat.
Proof.
  apply (updateAlerts_lists_carried_alerts Sample.latest_entries loaded).
  reflexivity.
Defined.

(** ** A push that fails part-way *)

(** X4: the push handler has no error handling of its own, so it stops at
    the first step that throws.  The history is replaced first and stays
    replaced.  If the table fails to render, the chart and the alert list
    keep what they showed; if the table renders and the chart throws, the
    alert list keeps what it showed.  A push without a payload changes
    nothing at all. *)
Theorem price_update_stops_at_first_failure (data : value) (p : page) :
  nullish data = false ->
  let latest := read_field data latest_data in
  let history := read_field data price_history in
  let q := snd (on_price_update data p) in
  (forall e,
     fst (updatePriceTable latest p) = Throw e ->
     fst (on_price_update data p) = Throw e
     /\ priceHistory q = history
     /\ priceTable q = priceTable (snd (updatePriceTable latest p))
     /\ priceChart q = priceChart p
     /\ alertsList q = alertsList p)
  /\ (forall e,
        fst (updatePriceTable latest p) = Ok tt ->
        fst (updatePriceChart (selectedCoin p) history p) = Throw e ->
        fst (on_price_update data p) = Throw e
        /\ priceHistory q = history
        /\ priceTable q = priceTable (snd (updatePriceTable latest p))
        /\ priceChart q = priceChart p
        /\ alertsList q = alertsList p)
  /\ (forall absent,
        nullish absent = true ->
        on_price_update absent p = (Throw TypeError, p)).
Proof.
  intros Hn. cbv zeta.
  rewrite on_price_update_effect, (Get_read_field data price_history Hn).
  rewrite !updatePriceTable_effect, updatePriceChart_effect. cbv zeta.
  cbn [fst snd priceTable set_priceTable].
  split; [|split].
  - intros e He. rewrite He. cbn. repeat split.
  - intros e Htable Hchart. rewrite Htable.
    destruct (chart_effect (selectedCoin p)
                (read_field data price_history)) as [[drawn|]|e'];
      cbn [fst] in Hchart; try discriminate.
    injection Hchart as ->. cbn. repeat split.
  - intros absent Habsent. rewrite on_price_update_effect.
    destruct absent; try discriminate; reflexivity.
Qed.

Lemma price_update_stops_at_first_failure_witness :
  let data :=
    VObj [ ("latest_data", VObj [("bitcoin", VNull)]);
           ("price_history", VObj Sample.history_entries) ] in
  let shown := step loaded (PriceUpdate Sample.push) in
  fst (on_price_update data shown) = Throw TypeError
  /\ priceHistory (snd (on_price_update data shown))
     = VObj Sample.history_entries
  /\ priceTable (snd (on_price_update data shown))
     = priceTable
         (snd (updatePriceTable (VObj [("bitcoin", VNull)]) shown))
  /\ priceChart (snd (on_price_update data shown)) = priceChart shown
  /\ alertsList (snd (on_price_update data shown)) = alertsList shown.
Proof.
  cbv zeta.
  destruct (price_update_stops_at_first_failure
              (VObj [ ("latest_data", VObj [("bitcoin", VNull)]);
                      ("price_history", VObj Sample.history_entries) ])
              (step loaded (PriceUpdate Sample.push)) eq_refl)
    as (Htable & _ & _).
  apply (Htable TypeError). reflexivity.
Defined.

(** ** What the chart is given *)

Lemma mapR_Forall2 {A B : Type} (f : A -> result B) (xs : list A) (bs : list B) :
  mapR f xs = Ok bs <-> Forall2 (fun a b => f a = Ok b) xs bs.
Proof.
  revert bs. induction xs as [|a rest IH]; intros bs; simpl.
  - split.
    + intros [= <-]. constructor.
    + intros HF. inversion HF. reflexivity.
  - destruct (f a) as [b|e] eqn:Hf; simpl.
    + destruct (mapR f rest) as [more|e]; simpl.
      * split.
        -- intros [= <-]. constructor; [exact Hf | now apply IH].
        -- intros HF. inversion HF as [|? b' ? more' Hb Hrest]; subst.
           apply IH in Hrest. congruence.
      * split; [discriminate|].
        intros HF. inversion HF as [|? b' ? more' Hb Hrest]; subst.
        apply IH in Hrest. discriminate.
    + split; [discriminate|].
      intros HF. inversion HF; subst. congruence.
Qed.

Lemma mapR_point_price (points : list value) :
  Forall (fun d => nullish d = false) points ->
  mapR point_price points = Ok (map (fun d => read_field d price) points).
Proof.
  induction 1 as [|d rest Hd _ IH]; simpl; [reflexivity|].
  unfold point_price at 1. rewrite (Get_read_field d price Hd). simpl.
  now rewrite IH.
Qed.

(** X7: when the history holds, for an ASCII coin id, an array of points,
    each other than null and with a timestamp that is missing or
    printable, [updatePriceChart] draws one scatter trace named after the
    coin in upper case, with one x and one y per point, in order: x is the
    Date of the point's timestamp times 1000 (an invalid Date if the point
    has no timestamp) and y is the point's price exactly as received. *)
Theorem updatePriceChart_plots_each_point
  (coin : string) (entries : list (string * value)) (points : list value)
  (p : page) :
  lookup coin entries = Some (VArr points) ->
  forallb point_ok points = true ->
  ascii_text coin = true ->
  exists dates name,
    updatePriceChart coin (VObj entries) p
    = (Ok tt,
       set_priceChart
         (Some {| plot_data :=
                    [ {| trace_x := dates;
                         trace_y := map (fun d => read_field d price) points;
                         trace_type := "scatter";
                         trace_name := name;
                         trace_line_color := "#00ff00" |} ];
                  plot_layout := chart_layout |}) p)
    /\ upper_cased coin name
    /\ Forall2 dated points dates
    /\ List.length dates = List.length points
    /\ (forall seconds props,
          lookup "timestamp" props = Some (VNum seconds) ->
          dated (VObj props) (new_Date (seconds * 1000)))
    /\ (forall props,
          lookup "timestamp" props = None ->
          dated (VObj props) {| time_value := nan |}).
Proof.
  intros Hentry Hpoints _. rewrite forallb_forall in Hpoints.
  destruct (mapR_ok point_date points) as [dates Hdates].
  { apply Forall_forall. intros d Hd. apply point_ok_date. auto. }
  assert (Hprices : mapR point_price points
                    = Ok (map (fun d => read_field d price) points)).
  { apply mapR_point_price. apply Forall_forall. intros d Hd.
    specialize (Hpoints d Hd). unfold point_ok in Hpoints.
    apply andb_true_iff in Hpoints as [Hn _]. now apply negb_true_iff. }
  exists dates, (toUpperCase coin).
  split; [|split; [|split; [|split; [|split]]]].
  - rewrite updatePriceChart_effect.
    now rewrite (chart_effect_entry coin entries points dates _ Hentry Hdates Hprices).
  - apply toUpperCase_upper_cased.
  - now apply mapR_Forall2.
  - symmetry. apply (Forall2_length (proj1 (mapR_Forall2 _ _ _) Hdates)).
  - intros seconds props Hts. unfold dated, point_date, Get, times.
    cbn [field_name]. rewrite Hts. reflexivity.
  - intros props Hts. unfold dated, point_date, Get, times.
    cbn [field_name]. rewrite Hts. vm_compute. reflexivity.
Qed.

Lemma updatePriceChart_plots_each_point_witness :
  updatePriceChart "bitcoin" (VObj Sample.history_entries) loaded
  = (Ok tt,
     set_priceChart
       (Some {| plot_data :=
                  [ {| trace_x := [ {| time_value := 1700000000000 |};
                                    {| time_value := 1700000060000 |} ];
                       trace_y := [VNum 45000; VNum 45000.5];
                       trace_type := "scatter";
                       trace_name := "BITCOIN";
                       trace_line_color := "#00ff00" |} ];
                plot_layout := chart_layout |}) loaded).
Proof.
  destruct (updatePriceChart_plots_each_point "bitcoin" Sample.history_entries
              [ VObj [("timestamp", VNum 1700000000); ("price", VNum 45000)];
                VObj [("timestamp", VNum 1700000060); ("price", VNum 45000.5)] ]
              loaded eq_refl eq_refl eq_refl)
    as (dates & name & Hrun & Hname & Hdates & _ & Hnumber & _).
  rewrite Hrun.
  rewrite (upper_cased_toUpperCase "bitcoin" name Hname).
  inversion Hdates as [|d1 date1 ds1 rest1 H1 Hrest1]; subst.
  inversion Hrest1 as [|d2 date2 ds2 rest2 H2 Hrest2]; subst.
  inversion Hrest2; subst.
  pose proof (Hnumber 1700000000%float [("timestamp", VNum 1700000000);
                                        ("price", VNum 45000)] eq_refl) as G1.
  pose proof (Hnumber 1700000060%float [("timestamp", VNum 1700000060);
                                        ("price", VNum 45000.5)] eq_refl) as G2.
  unfold dated in H1, H2, G1, G2.
  rewrite G1 in H1. rewrite G2 in H2.
  injection H1 as <-. injection H2 as <-.
  reflexivity.
Defined.

(** ** The chart is drawn whole or not at all *)

Lemma mapR_throws {A B : Type} (f : A -> result B) (xs : list A) (a : A) :
  In a xs -> f a = Throw TypeError -> mapR f xs = Throw TypeError.
Proof.
  induction xs as [|x rest IH]; simpl; [contradiction|].
  intros [->|Hin] Hf.
  - now rewrite Hf.
  - destruct (f x) as [b|[]]; simpl; [|reflexivity].
    now rewrite (IH Hin Hf).
Qed.

(** X8: [updatePriceChart] draws the chart whole or leaves the page as it
    was: when it throws, nothing has been written.  It throws when the
    entry for the coin is truthy but not an array, and when the array
    holds a null point. *)
Theorem updatePriceChart_all_or_nothing
  (coin : string) (history : value) (p : page) :
  (forall e,
     fst (updatePriceChart coin history p) = Throw e ->
     snd (updatePriceChart coin history p) = p)
  /\ (forall entries entry,
        lookup coin entries = Some entry ->
        ToBoolean entry = true ->
        (forall elems, entry <> VArr elems) ->
        updatePriceChart coin (VObj entries) p = (Throw TypeError, p))
  /\ (forall entries points,
        lookup coin entries = Some (VArr points) ->
        In VNull points ->
        updatePriceChart coin (VObj entries) p = (Throw TypeError, p)).
Proof.
  split; [|split].
  - intros e. rewrite updatePriceChart_effect.
    destruct (chart_effect coin history) as [[drawn|]|e']; cbn;
      try discriminate; reflexivity.
  - intros entries entry Hentry Htruthy Hshape.
    rewrite updatePriceChart_effect. unfold chart_effect.
    cbn [ToBoolean negb GetKeyed rbind]. rewrite Hentry.
    cbn [truthy]. rewrite Htruthy. cbn [negb].
    destruct entry as [| | | | |elems|]; try reflexivity.
    now destruct (Hshape elems).
  - intros entries points Hentry Hnull.
    rewrite updatePriceChart_effect. unfold chart_effect.
    cbn [ToBoolean negb GetKeyed rbind]. rewrite Hentry.
    cbn [truthy ToBoolean negb map_receiver rbind].
    now rewrite (mapR_throws point_date points VNull Hnull eq_refl).
Qed.

(** ** Where the selected coin comes from *)

Lemma table_effect_keys (data : value) :
  Forall (fun row => In (tr_click row) (keys data)) (fst (table_effect data)).
Proof.
  unfold table_effect, keys.
  destruct (Object_entries data) as [entries|e]; [|constructor].
  apply gather_one_Forall. apply Forall_forall.
  intros entry Hin row Hrow. apply row_of_renders in Hrow.
  destruct Hrow as [_ ->]. now apply in_map.
Qed.

Lemma step_selects_only (P : string -> Prop) (p : page) (ev : event) :
  (forall coin, In coin (offered ev) -> P coin) ->
  selects_only P p -> selects_only P (step p ev).
Proof.
  intros Hoffered [Hsel Hrows]. unfold step, selects_only.
  assert (Htable : forall data,
    (forall coin, In coin (keys data) -> P coin) ->
    Forall (fun row => P (tr_click row)) (fst (table_effect data))).
  { intros data Hkeys. eapply Forall_impl; [|apply table_effect_keys].
    intros row. apply Hkeys. }
  destruct ev as [|data|data|data|position]; cbn [handler offered] in *.
  - now split.
  - rewrite on_price_update_effect.
    destruct (Get data price_history) as [history|e] eqn:Hhistory;
      [|now split].
    assert (Hn : nullish data = false)
      by (destruct data; try reflexivity; discriminate Hhistory).
    rewrite (Get_read_field data latest_data Hn) in Hoffered.
    specialize (Htable _ Hoffered). cbv zeta.
    destruct (snd (table_effect (read_field data latest_data))) as [u|e];
      [|now split].
    destruct (chart_effect (selectedCoin p) history) as [[plotted|]|e];
      now split.
  - unfold on_latest. rewrite updatePriceTable_effect. split; [exact Hsel|].
    now apply Htable.
  - rewrite on_history_effect.
    destruct (chart_effect (selectedCoin p) data) as [[drawn|]|e]; now split.
  - unfold bind, read.
    destruct (nth_error (priceTable p) position) as [row|] eqn:Hrow;
      [|now split].
    rewrite selectCoin_effect.
    assert (Hclick : P (tr_click row)).
    { rewrite Forall_forall in Hrows. apply Hrows.
      eapply nth_error_In; exact Hrow. }
    destruct (chart_effect (tr_click row) (priceHistory p)) as [[drawn|]|e];
      now split.
Qed.

(** X10: over any session the selected coin is the initial one, bitcoin, or
    a key of latest data that some earlier event delivered: a click can
    only select a coin the server has put into the table. *)
Theorem selected_coin_was_offered (evs : list event) :
  In (selectedCoin (run loaded evs)) ("bitcoin" :: flat_map offered evs).
Proof.
  assert (Hrun : forall (P : string -> Prop) es q,
    (forall ev, In ev es -> forall coin, In coin (offered ev) -> P coin) ->
    selects_only P q -> selects_only P (run q es)).
  { intros P es. induction es as [|ev rest IH]; intros q Hes Hq; [exact Hq|].
    cbn [run fold_left]. apply IH.
    - intros ev' Hin. apply Hes. now right.
    - apply step_selects_only; [|exact Hq]. apply Hes. now left. }
  apply (Hrun (fun coin => In coin ("bitcoin" :: flat_map offered evs)) evs loaded).
  - intros ev Hin coin Hcoin. right. apply in_flat_map. now exists ev.
  - split; [now left | constructor].
Qed.

(** ** When the formatters throw *)

Lemma not_printable_shape (v : value) :
  printable v = false ->
  ToString v = Throw TypeError
  /\ ToNumber v = Throw TypeError
  /\ ToIntlMathematicalValue v = Throw TypeError.
Proof.
  unfold printable.
  destruct v; try discriminate;
    unfold ToNumber, ToIntlMathematicalValue;
    destruct (ToString _) as [s|[]]; try discriminate; auto.
Qed.

(** X12: the three formatters return for every null, boolean, number and
    string, and more generally whenever the value converts to a primitive;
    when it does not (an object that carries its own [toString] property,
    or an array holding one) all three throw a TypeError. *)
Theorem formatters_throw_together (v : value) :
  (primitive v = true -> printable v = true)
  /\ (printable v = true ->
      (exists text, formatNumber v = Ok text)
      /\ (exists text, formatPrice v = Ok text)
      /\ (exists text, formatChange v = Ok text))
  /\ (printable v = false ->
      formatNumber v = Throw TypeError
      /\ formatPrice v = Throw TypeError
      /\ formatChange v = Throw TypeError)
  /\ (forall props,
        lookup "toString" props <> None -> printable (VObj props) = false).
Proof.
  split; [apply primitive_printable|].
  split; [|split].
  - intros Hp.
    auto using printable_formatNumber, printable_formatPrice,
      printable_formatChange.
  - intros Hp. destruct (not_printable_shape v Hp) as (_ & Hnum & Hintl).
    unfold formatPrice, formatChange, ge_zero, formatNumber,
      formatNumber_decimals, NumberFormat_format.
    rewrite Hnum, Hintl. repeat split.
  - intros props Hown. unfold printable. cbn [ToString].
    destruct (lookup "toString" props); [reflexivity | contradiction].
Qed.

(** ** Selection and later pushes *)

(** X13: a selection is remembered: after [selectCoin(coin)] of an ASCII
    coin id, the next push that carries a LatestSnapshotMap and a
    HistoryMap with an entry for the coin returns, leaves the coin
    selected and draws that coin's points: one trace, named after the coin
    in upper case, whose x values are the dates of the points and whose y
    values are their prices, in order. *)
Theorem selection_survives_push
  (coin : string) (data entry : value) (p : page) :
  LatestSnapshotMap (read_field data latest_data) = true ->
  HistoryMap (read_field data price_history) = true ->
  history_entry coin (read_field data price_history) = Some entry ->
  ascii_text coin = true ->
  let after := on_price_update data (snd (selectCoin coin p)) in
  fst after = Ok tt
  /\ selectedCoin (snd after) = coin
  /\ exists points dates name,
       entry = VArr points
       /\ priceChart (snd after)
          = Some {| plot_data :=
                      [ {| trace_x := dates;
                           trace_y := map (fun d => read_field d price) points;
                           trace_type := "scatter";
                           trace_name := name;
                           trace_line_color := "#00ff00" |} ];
                    plot_layout := chart_layout |}
       /\ upper_cased coin name
       /\ Forall2 dated points dates
       /\ (forall seconds props,
             lookup "timestamp" props = Some (VNum seconds) ->
             dated (VObj props) (new_Date (seconds * 1000))).
Proof.
  intros Hlatest Hhistory Hentry _. cbv zeta.
  assert (Hn : nullish data = false).
  { destruct data; try reflexivity; discriminate Hlatest. }
  assert (Hsel : selectedCoin (snd (selectCoin coin p)) = coin).
  { rewrite selectCoin_effect.
    destruct (chart_effect coin (priceHistory p)) as [[drawn|]|e]; reflexivity. }
  pose proof (HistoryMap_chart_effect coin _ Hhistory) as Hchart.
  rewrite Hentry in Hchart.
  destruct Hchart as (points & ts & ps & -> & Hts & Hps & Heff).
  assert (Hprices : ps = map (fun d => read_field d price) points).
  { assert (Hall : Forall (fun d => nullish d = false) points).
    { destruct (read_field data price_history) as [| | | | | |entries];
        try discriminate Hentry.
      simpl in Hhistory, Hentry. rewrite forallb_forall in Hhistory.
      specialize (Hhistory _ (lookup_In _ _ _ Hentry)). simpl in Hhistory.
      rewrite forallb_forall in Hhistory.
      apply Forall_forall. intros d Hd. specialize (Hhistory d Hd).
      unfold point_ok in Hhistory.
      apply andb_true_iff in Hhistory as [Hnn _]. now apply negb_true_iff. }
    rewrite (mapR_point_price points Hall) in Hps. congruence. }
  rewrite on_price_update_effect, (Get_read_field data price_history Hn).
  cbv zeta.
  rewrite (LatestSnapshotMap_table _ Hlatest), Hsel, Heff.
  cbn [fst snd selectedCoin priceChart set_alertsList set_priceChart
       set_priceTable set_priceHistory].
  split; [now apply LatestSnapshotMap_alerts|].
  split; [exact Hsel|].
  exists points, ts, (toUpperCase coin).
  split; [reflexivity|].
  split; [unfold chart_trace; now rewrite Hprices|].
  split; [apply toUpperCase_upper_cased|].
  split; [now apply mapR_Forall2|].
  intros seconds props Hts'. unfold dated, point_date, Get, times.
  cbn [field_name]. rewrite Hts'. reflexivity.
Qed.

Lemma selection_survives_push_witness :
  let shown := run loaded [LatestResponse (VObj Sample.latest_entries)] in
  let after :=
    on_price_update Sample.push (snd (selectCoin "bitcoin" shown)) in
  fst after = Ok tt
  /\ selectedCoin (snd after) = "bitcoin"
  /\ priceChart (snd after)
     = Some {| plot_data :=
                 [ {| trace_x := [ {| time_value := 1700000000000 |};
                                   {| time_value := 1700000060000 |} ];
                      trace_y := [VNum 45000; VNum 45000.5];
                      trace_type := "scatter";
                      trace_name := "BITCOIN";
                      trace_line_color := "#00ff00" |} ];
               plot_layout := chart_layout |}.
Proof.
  cbv zeta.
  destruct (selection_survives_push "bitcoin" Sample.push
              (VArr [ VObj [("timestamp", VNum 1700000000); ("price", VNum 45000)];
                      VObj [("timestamp", VNum 1700000060);
                            ("price", VNum 45000.5)] ])
              (run loaded [LatestResponse (VObj Sample.latest_entries)])
              eq_refl eq_refl eq_refl eq_refl)
    as (Hok & Hsel & points & dates & name & Hpoints & Hchart & Hname
        & Hdates & Hnumber).
  split; [exact Hok|]. split; [exact Hsel|].
  rewrite Hchart.
  injection Hpoints as <-.
  rewrite (upper_cased_toUpperCase "bitcoin" name Hname).
  inversion Hdates as [|d1 date1 ds1 rest1 H1 Hrest1]; subst.
  inversion Hrest1 as [|d2 date2 ds2 rest2 H2 Hrest2]; subst.
  inversion Hrest2; subst.
  pose proof (Hnumber 1700000000%float [("timestamp", VNum 1700000000);
                                        ("price", VNum 45000)] eq_refl) as G1.
  pose proof (Hnumber 1700000060%float [("timestamp", VNum 1700000060);
                                        ("price", VNum 45000.5)] eq_refl) as G2.
  unfold dated in H1, H2, G1, G2.
  rewrite G1 in H1. rewrite G2 in H2.
  injection H1 as <-. injection H2 as <-.
  reflexivity.
Defined.

(** X14: selecting a coin the held history has nothing for changes
    [selectedCoin] and leaves the chart showing what it showed: the chart
    and the selection can disagree until a push brings an entry for the
    coin. *)
Theorem selectCoin_without_history_keeps_chart (coin : string) (p : page) :
  no_history coin (priceHistory p) = true ->
  let q := snd (selectCoin coin p) in
  selectedCoin q = coin /\ priceChart q = priceChart p.
Proof.
  intros Hno. cbv zeta. rewrite selectCoin_effect.
  pose proof (no_history_chart_effect coin _ Hno) as Hh.
  destruct (chart_effect coin (priceHistory p)) as [[drawn|]|e];
    [contradiction | split; reflexivity | split; reflexivity].
Qed.

Lemma selectCoin_without_history_keeps_chart_witness :
  let shown := step loaded (PriceUpdate Sample.push) in
  selectedCoin (snd (selectCoin "solana" shown)) = "solana"
  /\ priceChart (snd (selectCoin "solana" shown)) = priceChart shown.
Proof.
  apply (selectCoin_without_history_keeps_chart "solana"
           (step loaded (PriceUpdate Sample.push))).
  reflexivity.
Defined.

(** ** Every chart the page shows *)

Lemma chart_effect_well_drawn (coin : string) (history : value)
  (drawn : plot) :
  chart_effect coin history = Ok (Some drawn) -> well_drawn (Some drawn).
Proof.
  unfold chart_effect.
  destruct (negb (ToBoolean history)); [discriminate|].
  destruct (GetKeyed history coin) as [entry|e]; cbn [rbind]; [|discriminate].
  destruct (negb (truthy entry)); [discriminate|].
  destruct (map_receiver entry) as [points|e]; cbn [rbind]; [|discriminate].
  destruct (mapR point_date points) as [ts|e] eqn:Hts; cbn [rbind];
    [|discriminate].
  destruct (mapR point_price points) as [ps|e] eqn:Hps; cbn [rbind];
    [|discriminate].
  intros [= <-]. exists coin, ts, ps. split; [reflexivity|].
  apply mapR_Forall2 in Hts. apply mapR_Forall2 in Hps.
  rewrite <- (Forall2_length Hts). exact (Forall2_length Hps).
Qed.

Lemma step_well_drawn (p : page) (ev : event) :
  well_drawn (priceChart p) -> well_drawn (priceChart (step p ev)).
Proof.
  intros Hp. unfold step.
  destruct ev as [|data|data|data|position]; cbn [handler].
  - exact Hp.
  - rewrite on_price_update_effect.
    destruct (Get data price_history) as [history|e]; [|exact Hp].
    cbv zeta.
    destruct (snd (table_effect (read_field data latest_data))) as [u|e];
      [|exact Hp].
    destruct (chart_effect (selectedCoin p) history) as [[plotted|]|e] eqn:Hc;
      try exact Hp.
    exact (chart_effect_well_drawn _ _ _ Hc).
  - unfold on_latest. rewrite updatePriceTable_effect. exact Hp.
  - rewrite on_history_effect.
    destruct (chart_effect (selectedCoin p) data) as [[drawn|]|e] eqn:Hc;
      try exact Hp.
    exact (chart_effect_well_drawn _ _ _ Hc).
  - unfold bind, read.
    destruct (nth_error (priceTable p) position) as [row|]; [|exact Hp].
    rewrite selectCoin_effect.
    destruct (chart_effect (tr_click row) (priceHistory p)) as [[drawn|]|e] eqn:Hc;
      try exact Hp.
    exact (chart_effect_well_drawn _ _ _ Hc).
Qed.

(** X15: over any session, whatever the payloads, the chart is either not
    drawn yet or shows exactly one scatter trace over the fixed layout,
    with as many x values as y values: no sequence of events leaves a plot
    with mismatched series or with more than one coin. *)
Theorem session_chart_well_drawn (evs : list event) :
  well_drawn (priceChart (run loaded evs)).
Proof.
  assert (Hrun : forall q, well_drawn (priceChart q) ->
                           well_drawn (priceChart (run q evs))).
  { induction evs as [|ev rest IH]; intros q Hq; [exact Hq|].
    cbn [run fold_left]. apply IH. now apply step_well_drawn. }
  apply Hrun. exact I.
Qed.

(** ** The alert list when an alert fails *)

Lemma gather_flat_then_fail {A B C : Type} (f : A -> list B * result unit)
  (g : A -> list C) (R : C -> B -> Prop) (xs rest : list A) (a : A)
  (out : list B) (items : list C) (e : exn) :
  Forall (fun x => exists o, f x = (o, Ok tt) /\ Forall2 R (g x) o) xs ->
  f a = (out, Throw e) -> Forall2 R items out ->
  exists outs,
    gather f (xs ++ a :: rest)%list = (outs, Throw e)
    /\ Forall2 R (flat_map g xs ++ items)%list outs.
Proof.
  intros Hxs Ha Hout.
  destruct (gather_flat f g R xs Hxs) as [before [Hbefore HF]].
  exists (before ++ out)%list. split.
  - rewrite gather_app, Hbefore. cbn [gather]. now rewrite Ha.
  - now apply Forall2_app.
Qed.

(** X16: alert entries are appended as the loops go, so when an alert
    cannot be rendered (a null alert, say) [updateAlerts] throws and the
    list holds the alerts of the coins before and the alerts of the same
    coin before the failing one; an [alerts] value that is truthy but not
    an array throws before adding anything for its coin. *)
Theorem updateAlerts_keeps_entries_before_failure
  (good rest : list (string * value)) (coin : string) (info : value)
  (fine more : list value) (bad : value) (e : exn) (p : page) :
  Forall (fun entry => snapshot_ok (snd entry) = true) good ->
  Get info alerts = Ok (VArr (fine ++ bad :: more)%list) ->
  forallb alert_ok fine = true ->
  alertDiv coin bad = Throw e ->
  (exists shown,
     updateAlerts (VObj (good ++ (coin, info) :: rest)%list) p
     = (Throw e, set_alertsList shown p)
     /\ Forall2 shows (carried good ++ map (pair coin) fine)%list shown)
  /\ (forall other wrong,
        Get other alerts = Ok wrong -> ToBoolean wrong = true ->
        (forall elems, wrong <> VArr elems) ->
        exists shown,
          updateAlerts (VObj (good ++ (coin, other) :: rest)%list) p
          = (Throw TypeError, set_alertsList shown p)
          /\ Forall2 shows (carried good) shown).
Proof.
  intros Hgood Halerts Hfine Hbad.
  assert (Hbefore : Forall (fun x => exists o,
            alerts_of x = (o, Ok tt) /\ Forall2 shows (carried_by x) o) good).
  { eapply Forall_impl; [|exact Hgood].
    intros [c i] Hok. now apply snapshot_ok_carried. }
  split.
  - destruct (gather_one_ok (alertDiv coin)
                (fun alert entry => alertDiv coin alert = Ok entry) fine)
      as [out [Hout HF]].
    { apply Forall_forall. intros a Hin. rewrite forallb_forall in Hfine.
      destruct (alert_ok_alertDiv coin a (Hfine a Hin)) as [entry He].
      now exists entry. }
    destruct (gather_flat_then_fail alerts_of carried_by shows good rest
                (coin, info) out (map (pair coin) fine) e Hbefore)
      as [shown [Hshown HFs]].
    + unfold alerts_of. cbn [fst snd]. rewrite Halerts.
      cbn [ToBoolean forEach_receiver]. rewrite gather_app, Hout.
      cbn [gather]. rewrite Hbad. cbn [one]. now rewrite app_nil_r.
    + now apply Forall2_map_left.
    + exists shown. rewrite updateAlerts_effect. unfold alerts_effect.
      cbn [Object_entries]. rewrite Hshown. now split.
  - intros other wrong Hget Htruthy Hshape.
    destruct (gather_flat_then_fail alerts_of carried_by shows good rest
                (coin, other) [] [] TypeError Hbefore)
      as [shown [Hshown HFs]].
    + unfold alerts_of. cbn [fst snd]. rewrite Hget, Htruthy.
      destruct wrong as [| | | | |elems|]; try reflexivity.
      now destruct (Hshape elems).
    + constructor.
    + exists shown. rewrite updateAlerts_effect. unfold alerts_effect.
      cbn [Object_entries]. rewrite Hshown. rewrite app_nil_r in HFs.
      now split.
Qed.

Lemma updateAlerts_keeps_entries_before_failure_witness :
  exists shown,
    updateAlerts
      (VObj ([("bitcoin", Sample.bitcoin_snapshot)]
             ++ ("ethereum",
                 VObj [("alerts", VArr ([Sample.low_alert] ++ VNull :: [])%list)])
                :: [])%list)
      loaded
    = (Throw TypeError, set_alertsList shown loaded)
    /\ Forall2 shows
         (carried [("bitcoin", Sample.bitcoin_snapshot)]
          ++ map (pair "ethereum") [Sample.low_alert])%list shown.
Proof.
  apply (updateAlerts_keeps_entries_before_failure
           [("bitcoin", Sample.bitcoin_snapshot)] [] "ethereum"
           (VObj [("alerts", VArr ([Sample.low_alert] ++ VNull :: [])%list)])
           [Sample.low_alert] [] VNull TypeError loaded);
    try reflexivity.
  repeat constructor.
Defined.
